(** * prepdocscsv: a shallow embedding of the CSV-to-search-index script

    The script [prepdocscsv.py] parses its command line, chooses a
    credential, and then either purges a search index or (optionally)
    creates the index, reads a CSV file and uploads one document per row
    in batches of 1000.

    Python values are modelled as the script uses them: the [argparse]
    namespace as a record, dictionaries with string keys as [gmap string],
    the unbounded integer [i] as [Z].  The search service, the file system
    and the clock are the outside world: an interface [World] gives their
    replies, and every function of the script is a state-passing
    computation over a world that also records the calls it makes. *)

From Stdlib Require Import ZArith Lia.
From stdpp Require Import base option list gmap strings pretty.

Open Scope string_scope.
Open Scope list_scope.
Open Scope Z_scope.

(** ** Command line (lines 12-28) *)

(** [parser.parse_args()]: options without [store_true] are [None] when
    they are not given. *)
Module args.
Record t := {
  files : string;
  category : option string;
  skipblobs : bool;
  storageaccount : option string;
  container : option string;
  storagekey : option string;
  searchservice : option string;
  index : option string;
  searchkey : option string;
  remove : bool;
  removeall : bool;
  verbose : bool }.

Definition with_category (c : option string) (a : t) : t :=
  {| files := files a; category := c; skipblobs := skipblobs a;
     storageaccount := storageaccount a; container := container a;
     storagekey := storagekey a; searchservice := searchservice a;
     index := index a; searchkey := searchkey a; remove := remove a;
     removeall := removeall a; verbose := verbose a |}.
End args.

(** What [{x}] in an f-string shows for an optional string. *)
Definition py_str (o : option string) : string :=
  match o with Some s => s | None => "None" end.

Definition tab : string := String (Ascii.ascii_of_nat 9) EmptyString.

(** ** Credentials (lines 31-33) *)

Inductive credential :=
| DefaultAzureCredential
| AzureKeyCredential (key : string).

Definition default_creds (a : args.t) : option credential :=
  match args.searchkey a with
  | None => Some DefaultAzureCredential
  | Some _ => None
  end.

Definition search_creds (a : args.t) : option credential :=
  match args.searchkey a with
  | None => default_creds a
  | Some key => Some (AzureKeyCredential key)
  end.

(** ** Documents, batches, index schema *)

Inductive pyval := PyStr (s : string) | PyNone.

(** A dictionary with string keys: a CSV row, a document. *)
Abbreviation dict := (gmap string pyval).

Inductive IndexAction :=
| upload (document : dict).

Record IndexingResult := { key : string; succeeded : bool }.

Inductive SearchField :=
| SimpleField (name type : string) (is_key : bool)
| SearchableField (name type analyzer_name : string).

Record SemanticField := { field_name : string }.

Record PrioritizedFields := {
  title_field : option SemanticField;
  prioritized_content_fields : list SemanticField }.

Record SemanticConfiguration := {
  config_name : string;
  prioritized_fields : PrioritizedFields }.

Record SemanticSettings := { configurations : list SemanticConfiguration }.

Record SearchIndex := {
  name : option string;
  fields : list SearchField;
  semantic_settings : SemanticSettings }.

Record SearchIndexClient := {
  sic_endpoint : string;
  sic_credential : option credential }.

Record SearchClient := {
  endpoint : string;
  index_name : option string;
  sc_credential : option credential }.

(** ** Exceptions, outcomes, observable events *)

Inductive exn :=
| KeyError (k : string)
| UnboundLocalError (var : string)
| OSError (file : string)
| HttpResponseError (message : string).

(** What a call into the world gives back. *)
Inductive reply (A : Type) :=
| Returns (a : A)
| Throws (e : exn).
Arguments Returns {A} a.
Arguments Throws {A} e.

(** What [csv.DictReader] read from a file: the header and one
    dictionary per data row.  The reader gives every row every key of the
    header; nothing here enforces it, so what is proved of all files holds
    of those in particular. *)
Record csv_file := {
  fieldnames : option (list string);
  rows : list dict }.

Inductive printable :=
| Text (s : string)
| Names (l : option (list string)).

Inductive event :=
| Print (objs : list printable)
| Open (file mode encoding : string) (r : reply csv_file)
| ListIndexNames (c : SearchIndexClient) (r : reply (list string))
| CreateIndex (c : SearchIndexClient) (idx : SearchIndex) (r : reply unit)
| IndexDocuments (c : SearchClient) (batch : list IndexAction)
    (r : reply (list IndexingResult))
| UploadDocuments (c : SearchClient) (documents : list IndexAction)
    (r : reply (list IndexingResult))
| SearchCall (c : SearchClient) (search_text : string) (top : Z)
    (include_total_count : bool) (r : reply (Z * list dict))
| DeleteDocuments (c : SearchClient) (documents : list dict)
    (r : reply (list IndexingResult))
| Sleep (secs : Z).

(** How a computation of the script ends. [OutOfFuel] is our bound on
    [while True], not a Python outcome. *)
Inductive outcome (A : Type) :=
| Ok (a : A)
| Raise (e : exn)
| OutOfFuel.
Arguments Ok {A} a.
Arguments Raise {A} e.
Arguments OutOfFuel {A}.

(** ** The outside world *)

(** The SDK calls, the file system and the clock, as the script uses
    them.  Each call may change the world and either returns or throws.
    [search] stands for [search_client.search(...)] together with the
    reading of its total count and of its documents. *)
Class World (W : Type) := {
  open_file : string -> string -> string -> W -> W * reply csv_file;
  list_index_names : SearchIndexClient -> W -> W * reply (list string);
  create_index : SearchIndexClient -> SearchIndex -> W -> W * reply unit;
  index_documents :
    SearchClient -> list IndexAction -> W -> W * reply (list IndexingResult);
  upload_documents :
    SearchClient -> list IndexAction -> W -> W * reply (list IndexingResult);
  search :
    SearchClient -> string -> Z -> bool -> W -> W * reply (Z * list dict);
  delete_documents :
    SearchClient -> list dict -> W -> W * reply (list IndexingResult);
  sleep : Z -> W -> W }.

(** ** The monad of the script: world passing, event log, exceptions *)

Record run (W A : Type) := Run {
  trace : list event;
  final : W;
  result : outcome A }.
Arguments Run {W A} trace final result.
Arguments trace {W A} r.
Arguments final {W A} r.
Arguments result {W A} r.

Definition M (W A : Type) : Type := W -> run W A.

Definition ret {W A} (a : A) : M W A := fun w => Run [] w (Ok a).

Definition raise {W A} (e : exn) : M W A := fun w => Run [] w (Raise e).

Definition out_of_fuel {W A} : M W A := fun w => Run [] w OutOfFuel.

Definition bind {W A B} (m : M W A) (f : A -> M W B) : M W B :=
  fun w =>
    let r := m w in
    match result r with
    | Ok a => let r' := f a (final r) in
              Run (trace r ++ trace r') (final r') (result r')
    | Raise e => Run (trace r) (final r) (Raise e)
    | OutOfFuel => Run (trace r) (final r) OutOfFuel
    end.

#[global] Instance M_ret {W} : MRet (M W) := fun A => @ret W A.
#[global] Instance M_bind {W} : MBind (M W) := fun A B f m => @bind W A B m f.

(** A call into the world: log it with its reply, and raise what it throws. *)
Definition call {W A} (op : W -> W * reply A) (ev : reply A -> event) : M W A :=
  fun w =>
    let '(w', r) := op w in
    Run [ev r] w' (match r with Returns a => Ok a | Throws e => Raise e end).

Definition print {W} (objs : list printable) : M W unit :=
  fun w => Run [Print objs] w (Ok tt).

(** [if args.verbose: print(...)] *)
Definition when_verbose {W} (a : args.t) (line : string) : M W unit :=
  if args.verbose a then print [Text line] else ret tt.

(** [d[k]] *)
Definition getitem {W} (d : dict) (k : string) : M W pyval :=
  match d !! k with
  | Some v => ret v
  | None => raise (KeyError k)
  end.

(** Reading a local variable that may not have been assigned yet. *)
Definition local {W A} (var : string) (v : option A) : M W A :=
  match v with
  | Some x => ret x
  | None => raise (UnboundLocalError var)
  end.

(** A list comprehension whose element expression may raise. *)
Fixpoint comprehension {W A B} (f : A -> M W B) (l : list A) : M W (list B) :=
  match l with
  | [] => ret []
  | x :: l' => y ← f x; ys ← comprehension f l'; ret (y :: ys)
  end.

(** ** The script *)

Section script.
Context {W : Type} `{World W}.
Variable a : args.t.

Definition service_url : string :=
  "https://" +:+ py_str (args.searchservice a) +:+ ".search.windows.net/".

(** *** create_search_index (lines 35-62) *)

Definition the_index : SearchIndex :=
  {| name := args.index a;
     fields :=
       [ SimpleField "id" "Edm.String" true;
         SearchableField "name" "Edm.String" "en.microsoft";
         SearchableField "description" "Edm.String" "en.microsoft" ];
     semantic_settings :=
       {| configurations :=
            [ {| config_name := "default";
                 prioritized_fields :=
                   {| title_field := None;
                      prioritized_content_fields :=
                        [ {| field_name := "name" |};
                          {| field_name := "description" |} ] |} |} ] |} |}.

(** [args.index not in names]: [None] equals no string. *)
Definition index_listed (names : list string) : bool :=
  match args.index a with
  | Some n => bool_decide (n ∈ names)
  | None => false
  end.

Definition the_index_client : SearchIndexClient :=
  {| sic_endpoint := service_url; sic_credential := search_creds a |}.

Definition create_search_index : M W unit :=
  when_verbose a
    ("Ensuring search index " +:+ py_str (args.index a) +:+ " exists");;
  let index_client := the_index_client in
  names ← call (list_index_names index_client) (ListIndexNames index_client);
  if negb (index_listed names) then
    let index := the_index in
    when_verbose a
      ("Creating " +:+ py_str (args.index a) +:+ " search index");;
    call (create_index index_client index) (CreateIndex index_client index)
  else
    when_verbose a
      ("Search index " +:+ py_str (args.index a) +:+ " already exists").

(** *** index_sections (lines 64-83) *)

Definition the_search_client : SearchClient :=
  {| endpoint := service_url;
     index_name := args.index a;
     sc_credential := search_creds a |}.

(** [sum([1 for r in results if r.succeeded])] *)
Definition count_succeeded (results : list IndexingResult) : Z :=
  foldr Z.add 0 (map (fun _ => 1) (List.filter succeeded results)).

Definition indexed_line (results : list IndexingResult) (ok : Z) : string :=
  tab +:+ "Indexed " +:+ pretty (length results) +:+ " sections, "
      +:+ pretty ok +:+ " succeeded".

(** The local variables of [index_sections] that the loop assigns;
    [results] and [succeeded] are unbound until a flush assigns them. *)
Record locals := Locals {
  batch : list IndexAction;
  i : Z;
  results : option (list IndexingResult);
  succeeded_count : option Z }.

(** What the loop maintains: the pending batch holds [i mod 1000]
    actions. *)
Definition pending_ok (st : locals) : Prop :=
  Z.of_nat (length (batch st)) = i st mod 1000.

(** One turn of [for s in sections]. *)
Definition loop_body (s : dict) (st : locals) : M W locals :=
  let batch1 := batch st ++ [upload s] in
  let i1 := i st + 1 in
  if i1 mod 1000 =? 0 then
    res ← call (index_documents the_search_client batch1)
               (IndexDocuments the_search_client batch1);
    let ok := count_succeeded res in
    when_verbose a (indexed_line res ok);;
    ret (Locals [] i1 (Some res) (Some ok))
  else
    ret (Locals batch1 i1 (results st) (succeeded_count st)).

Fixpoint for_sections (sections : list dict) (st : locals) : M W locals :=
  match sections with
  | [] => ret st
  | s :: rest => st1 ← loop_body s st; for_sections rest st1
  end.

Definition final_flush (st : locals) : M W locals :=
  if 0 <? Z.of_nat (length (batch st)) then
    res ← call (upload_documents the_search_client (batch st))
               (UploadDocuments the_search_client (batch st));
    ret (Locals (batch st) (i st) (Some res) (Some (count_succeeded res)))
  else ret st.

Definition final_report (st : locals) : M W unit :=
  if args.verbose a then
    res ← local "results" (results st);
    ok ← local "succeeded" (succeeded_count st);
    print [Text (indexed_line res ok)]
  else ret tt.

Definition index_sections (sections : list dict) : M W unit :=
  when_verbose a
    ("Indexing sections into search index '" +:+ py_str (args.index a)
       +:+ "'");;
  st ← for_sections sections (Locals [] 0 None None);
  st ← final_flush st;
  final_report st.

(** *** remove_from_index (lines 85-97) *)

(** [time.sleep(secs)]: the world moves on while the script waits. *)
Definition time_sleep (secs : Z) : M W unit :=
  fun w => Run [Sleep secs] (sleep secs w) (Ok tt).

(** [[{"id": d["id"]} for d in r]] *)
Definition id_only (d : dict) : M W dict :=
  v ← getitem d "id"; ret ({[ "id" := v ]} : dict).

(** [while True], run for at most [fuel] turns. *)
Fixpoint purge_loop (fuel : nat) : M W unit :=
  match fuel with
  | O => out_of_fuel
  | S fuel' =>
    r ← call (search the_search_client "" 1000 true)
             (SearchCall the_search_client "" 1000 true);
    if fst r =? 0 then ret tt
    else
      keys ← comprehension id_only (snd r);
      r ← call (delete_documents the_search_client keys)
               (DeleteDocuments the_search_client keys);
      when_verbose a
        (tab +:+ "Removed " +:+ pretty (length r) +:+ " sections from index");;
      time_sleep 2;;
      purge_loop fuel'
  end.

Definition remove_from_index (fuel : nat) : M W unit :=
  when_verbose a
    ("Removing all documents from search index '" +:+ py_str (args.index a)
       +:+ "'");;
  purge_loop fuel.

(** *** Reading the CSV file and the top-level dispatch (lines 99-110) *)

(** [{"id": row["id"], "name": row["name"], "description": row["description"]}] *)
Definition section_of_row (row : dict) : M W dict :=
  v_id ← getitem row "id";
  v_name ← getitem row "name";
  v_description ← getitem row "description";
  ret (<["description" := v_description]>
         (<["name" := v_name]> ({[ "id" := v_id ]} : dict))).

Definition process_csv : M W unit :=
  print [Text "Processing CSV file..."];;
  csvfile ← call (open_file (args.files a) "r" "utf-8-sig")
                 (Open (args.files a) "r" "utf-8-sig");
  print [Text "Header:"; Names (fieldnames csvfile)];;
  sections ← comprehension section_of_row (rows csvfile);
  index_sections sections.

Definition main (fuel : nat) : M W unit :=
  if args.removeall a then remove_from_index fuel
  else
    (if negb (args.remove a) then create_search_index else ret tt);;
    process_csv.

End script.

(** ** Reading a trace *)

(** The batch of an upload call, be it the loop's [index_documents] or
    the trailing [upload_documents]. *)
Definition flushed (e : event) : option (list IndexAction) :=
  match e with
  | IndexDocuments _ b _ => Some b
  | UploadDocuments _ b _ => Some b
  | _ => None
  end.

Definition loop_flushed (e : event) : option (list IndexAction) :=
  match e with IndexDocuments _ b _ => Some b | _ => None end.

Definition trailing_flushed (e : event) : option (list IndexAction) :=
  match e with UploadDocuments _ b _ => Some b | _ => None end.

Definition uploads (t : list event) : list (list IndexAction) :=
  omap flushed t.

Definition document (x : IndexAction) : dict :=
  match x with upload d => d end.

Definition is_creation (e : event) : bool :=
  match e with CreateIndex _ _ _ => true | _ => false end.

Definition creations (t : list event) : nat :=
  length (List.filter is_creation t).

Definition is_index_management (e : event) : bool :=
  match e with
  | ListIndexNames _ _ | CreateIndex _ _ _ => true
  | _ => false
  end.

Definition is_upload (e : event) : bool :=
  match e with
  | IndexDocuments _ _ _ | UploadDocuments _ _ _ => true
  | _ => false
  end.

Definition is_purge (e : event) : bool :=
  match e with
  | SearchCall _ _ _ _ _ | DeleteDocuments _ _ _ | Sleep _ => true
  | _ => false
  end.

Definition is_open (e : event) : bool :=
  match e with Open _ _ _ _ => true | _ => false end.

(** A call that goes over the network to the search service. *)
Definition is_network (e : event) : bool :=
  match e with
  | ListIndexNames _ _ | CreateIndex _ _ _
  | IndexDocuments _ _ _ | UploadDocuments _ _ _
  | SearchCall _ _ _ _ _ | DeleteDocuments _ _ _ => true
  | Print _ | Open _ _ _ _ | Sleep _ => false
  end.

Definition replied {A} (r : reply A) : bool :=
  match r with Returns _ => true | Throws _ => false end.

(** The call behind this event returned (prints and sleeps always do). *)
Definition returned (e : event) : bool :=
  match e with
  | Print _ | Sleep _ => true
  | Open _ _ _ r => replied r
  | ListIndexNames _ r => replied r
  | CreateIndex _ _ r => replied r
  | IndexDocuments _ _ r => replied r
  | UploadDocuments _ _ r => replied r
  | SearchCall _ _ _ _ r => replied r
  | DeleteDocuments _ _ r => replied r
  end.

(** The credential a network call was made with. *)
Definition credential_of (e : event) : option (option credential) :=
  match e with
  | ListIndexNames c _ | CreateIndex c _ _ => Some (sic_credential c)
  | IndexDocuments c _ _ | UploadDocuments c _ _
  | SearchCall c _ _ _ _ | DeleteDocuments c _ _ => Some (sc_credential c)
  | Print _ | Open _ _ _ _ | Sleep _ => None
  end.

(** ** A reference world

    A strongly consistent in-memory service with one document store, a
    list of index names and a disk of parsed CSV files.  It rejects an
    empty batch, a second creation of the same index and an index without
    a name, as a search service would. *)

Record mem := Mem {
  disk : gmap string csv_file;
  listing : list string;
  store : list (string * dict) }.

Definition doc_id (d : dict) : option string :=
  match d !! "id" with
  | Some (PyStr k) => Some k
  | _ => None
  end.

Definition drop_key (k : string) (st : list (string * dict)) :
    list (string * dict) :=
  List.filter (fun p => negb (String.eqb (fst p) k)) st.

Definition mem_put (x : IndexAction) (st : list (string * dict)) :
    list (string * dict) * IndexingResult :=
  match doc_id (document x) with
  | Some k => ((k, document x) :: drop_key k st,
               {| key := k; succeeded := true |})
  | None => (st, {| key := ""; succeeded := false |})
  end.

Fixpoint mem_put_all (xs : list IndexAction) (st : list (string * dict)) :
    list (string * dict) * list IndexingResult :=
  match xs with
  | [] => (st, [])
  | x :: xs' =>
    let '(st1, r) := mem_put x st in
    let '(st2, rs) := mem_put_all xs' st1 in
    (st2, r :: rs)
  end.

Definition mem_send (xs : list IndexAction) (w : mem) :
    mem * reply (list IndexingResult) :=
  match xs with
  | [] => (w, Throws (HttpResponseError "no indexing actions in the request"))
  | _ =>
    let '(st, rs) := mem_put_all xs (store w) in
    (Mem (disk w) (listing w) st, Returns rs)
  end.

Definition mem_delete_one (d : dict) (st : list (string * dict)) :
    list (string * dict) * IndexingResult :=
  match doc_id d with
  | Some k => (drop_key k st, {| key := k; succeeded := true |})
  | None => (st, {| key := ""; succeeded := false |})
  end.

Fixpoint mem_delete_all (ds : list dict) (st : list (string * dict)) :
    list (string * dict) * list IndexingResult :=
  match ds with
  | [] => (st, [])
  | d :: ds' =>
    let '(st1, r) := mem_delete_one d st in
    let '(st2, rs) := mem_delete_all ds' st1 in
    (st2, r :: rs)
  end.

Definition mem_delete (ds : list dict) (w : mem) :
    mem * reply (list IndexingResult) :=
  match ds with
  | [] => (w, Throws (HttpResponseError "no indexing actions in the request"))
  | _ =>
    let '(st, rs) := mem_delete_all ds (store w) in
    (Mem (disk w) (listing w) st, Returns rs)
  end.

Definition mem_create (idx : SearchIndex) (w : mem) : mem * reply unit :=
  match name idx with
  | None => (w, Throws (HttpResponseError "the index has no name"))
  | Some n =>
    if bool_decide (n ∈ listing w)
    then (w, Throws (HttpResponseError "the index already exists"))
    else (Mem (disk w) (n :: listing w) (store w), Returns tt)
  end.

Definition mem_open (file : string) (w : mem) : mem * reply csv_file :=
  match disk w !! file with
  | Some f => (w, Returns f)
  | None => (w, Throws (OSError file))
  end.

(** A search gives each document back with its key field. *)
Definition mem_found (p : string * dict) : dict :=
  <["id" := PyStr (fst p)]> (snd p).

Definition mem_search (top : Z) (w : mem) : mem * reply (Z * list dict) :=
  (w, Returns (Z.of_nat (length (store w)),
               map mem_found (take (Z.to_nat top) (store w)))).

#[global] Instance mem_world : World mem := {
  open_file file _ _ := mem_open file;
  list_index_names _ w := (w, Returns (listing w));
  create_index _ := mem_create;
  index_documents _ := mem_send;
  upload_documents _ := mem_send;
  search _ _ top _ := mem_search top;
  delete_documents _ := mem_delete;
  sleep _ w := w }.

(** Sample inputs. *)

Definition sample_args : args.t :=
  {| args.files := "data.csv"; args.category := None; args.skipblobs := false;
     args.storageaccount := None; args.container := None;
     args.storagekey := None; args.searchservice := Some "mysearch";
     args.index := Some "myindex"; args.searchkey := None;
     args.remove := false; args.removeall := false; args.verbose := true |}.

Definition with_searchkey (k : option string) (a : args.t) : args.t :=
  {| args.files := args.files a; args.category := args.category a;
     args.skipblobs := args.skipblobs a;
     args.storageaccount := args.storageaccount a;
     args.container := args.container a; args.storagekey := args.storagekey a;
     args.searchservice := args.searchservice a; args.index := args.index a;
     args.searchkey := k; args.remove := args.remove a;
     args.removeall := args.removeall a; args.verbose := args.verbose a |}.

Definition with_flags (rm rmall v : bool) (a : args.t) : args.t :=
  {| args.files := args.files a; args.category := args.category a;
     args.skipblobs := args.skipblobs a;
     args.storageaccount := args.storageaccount a;
     args.container := args.container a; args.storagekey := args.storagekey a;
     args.searchservice := args.searchservice a; args.index := args.index a;
     args.searchkey := args.searchkey a; args.remove := rm;
     args.removeall := rmall; args.verbose := v |}.

Definition sample_row (n : nat) : dict :=
  <["description" := PyStr ("about " +:+ pretty n)]>
    (<["name" := PyStr ("item " +:+ pretty n)]>
       ({[ "id" := PyStr (pretty n) ]} : dict)).

Definition sample_rows (n : nat) : list dict := map sample_row (seq 0 n).

Definition empty_mem : mem := Mem ∅ [] [].

Definition stocked_mem : mem :=
  Mem ∅ [] (map (fun row => (pretty 0%nat, row)) (sample_rows 1)
            ++ [("7", sample_row 7); ("8", sample_row 8)]).

(** A disk whose CSV file has no [description] column. *)
Definition lacking_row : dict :=
  <["name" := PyStr "item 0"]> ({[ "id" := PyStr "0" ]} : dict).

Definition lacking_file : csv_file :=
  {| fieldnames := Some ["id"; "name"]; rows := [lacking_row] |}.

Definition lacking_mem : mem :=
  Mem {[ "data.csv" := lacking_file ]} [] [].

(** ** Vocabulary of the statements *)

(** What [if args.verbose: print(line)] adds to the trace. *)
Definition said (a : args.t) (line : string) : list event :=
  if args.verbose a then [Print [Text line]] else [].

(** The keys [[{"id": d["id"]} for d in r]] builds, when every document
    has an id. *)
Fixpoint id_keys (docs : list dict) : option (list dict) :=
  match docs with
  | [] => Some []
  | d :: docs' =>
    match d !! "id", id_keys docs' with
    | Some v, Some ks => Some (({[ "id" := v ]} : dict) :: ks)
    | _, _ => None
    end
  end.

(** The document a row gives, or the first column it lacks. *)
Definition row_document (row : dict) : reply dict :=
  match row !! "id", row !! "name", row !! "description" with
  | Some v_id, Some v_name, Some v_description =>
    Returns (<["description" := v_description]>
               (<["name" := v_name]> ({[ "id" := v_id ]} : dict)))
  | None, _, _ => Throws (KeyError "id")
  | _, None, _ => Throws (KeyError "name")
  | _, _, None => Throws (KeyError "description")
  end.


Fixpoint rows_documents (rows : list dict) : reply (list dict) :=
  match rows with
  | [] => Returns []
  | row :: rows' =>
    match row_document row with
    | Throws e => Throws e
    | Returns d =>
      match rows_documents rows' with
      | Throws e => Throws e
      | Returns ds => Returns (d :: ds)
      end
    end
  end.

Definition outcome_of {A} (r : reply A) : outcome A :=
  match r with Returns x => Ok x | Throws e => Raise e end.


(** The event, if a network call, was made with credential [c]. *)
Definition made_with (c : option credential) (e : event) : Prop :=
  match credential_of e with
  | Some c' => c' = c
  | None => True
  end.

Section vocabulary.
Context {W : Type} `{World W}.
Variable a : args.t.

Definition removed_line (r : list IndexingResult) : string :=
  tab +:+ "Removed " +:+ pretty (length r) +:+ " sections from index".

(** The traces of the purge loop: turns that search, find a count that
    is not zero, delete what was found by id and sleep two seconds,
    closed by a search that counts zero. *)
Inductive purge_trace : list event -> Prop :=
| purge_last docs :
    purge_trace [SearchCall (the_search_client a) "" 1000 true
                   (Returns (0, docs))]
| purge_turn n docs keys r t :
    n <> 0 ->
    id_keys docs = Some keys ->
    purge_trace t ->
    purge_trace
      (SearchCall (the_search_client a) "" 1000 true (Returns (n, docs))
       :: DeleteDocuments (the_search_client a) keys (Returns r)
       :: said a (removed_line r) ++ Sleep 2 :: t).

(** The index drains: a search always answers, and when it counts
    documents, they carry ids, deleting them succeeds, and after the
    pause the measure [mu] of what is left is smaller. *)
Definition drains (mu : W -> nat) : Prop :=
  forall w, exists w1 n docs,
    search (the_search_client a) "" 1000 true w = (w1, Returns (n, docs)) /\
    (n <> 0 ->
     exists keys w2 r,
       id_keys docs = Some keys /\
       delete_documents (the_search_client a) keys w1 = (w2, Returns r) /\
       (mu (sleep 2 w2) < mu w)%nat).

(** The listing follows the creations: once the index is listed it stays
    listed, and an index that was just created is listed. *)
Definition listing_consistent : Prop :=
  (forall w w1 names w2 names',
     list_index_names (the_index_client a) w = (w1, Returns names) ->
     index_listed a names = true ->
     list_index_names (the_index_client a) w1 = (w2, Returns names') ->
     index_listed a names' = true) /\
  (forall w w1 w2 names,
     create_index (the_index_client a) (the_index a) w = (w1, Returns tt) ->
     list_index_names (the_index_client a) w1 = (w2, Returns names) ->
     index_listed a names = true).
(** What [process_csv] prints and opens before it indexes. *)
Definition csv_head (rep : reply csv_file) : list event :=
  [Print [Text "Processing CSV file..."];
   Open (args.files a) "r" "utf-8-sig" rep].

Definition csv_header (f : csv_file) : list event :=
  csv_head (Returns f) ++ [Print [Text "Header:"; Names (fieldnames f)]].

End vocabulary.

(** ** Vocabulary of the further properties *)

(** The exception a call threw, if it threw. *)
Definition thrown (e : event) : option exn :=
  match e with
  | Open _ _ _ (Throws x) => Some x
  | ListIndexNames _ (Throws x) => Some x
  | CreateIndex _ _ (Throws x) => Some x
  | IndexDocuments _ _ (Throws x) => Some x
  | UploadDocuments _ _ (Throws x) => Some x
  | SearchCall _ _ _ _ (Throws x) => Some x
  | DeleteDocuments _ _ (Throws x) => Some x
  | _ => None
  end.

(** Either every call of the run returned, or the one that threw is the
    last event and the run ends in what it threw. *)
Definition stops_at_failure {W A} (r : run W A) : Prop :=
  forallb returned (trace r) = true \/
  exists t ev e,
    trace r = t ++ [ev] /\ forallb returned t = true /\
    thrown ev = Some e /\ result r = Raise e.

Definition is_sleep (e : event) : bool :=
  match e with Sleep _ => true | _ => false end.

Definition is_print (e : event) : bool :=
  match e with Print _ => true | _ => false end.

(** The calls of a trace: everything but the prints. *)
Definition calls (t : list event) : list event :=
  List.filter (fun e => negb (is_print e)) t.

Definition with_verbose (v : bool) (a : args.t) : args.t :=
  {| args.files := args.files a; args.category := args.category a;
     args.skipblobs := args.skipblobs a;
     args.storageaccount := args.storageaccount a;
     args.container := args.container a; args.storagekey := args.storagekey a;
     args.searchservice := args.searchservice a; args.index := args.index a;
     args.searchkey := args.searchkey a; args.remove := args.remove a;
     args.removeall := args.removeall a; args.verbose := v |}.

Section vocabulary_more.
Context {W : Type} `{World W}.
Variable a : args.t.

(** The index never drains: a search always counts documents that carry
    ids, and their deletion always returns. *)
Definition never_drains : Prop :=
  forall w, exists w1 n docs keys w2 r,
    search (the_search_client a) "" 1000 true w = (w1, Returns (n, docs)) /\
    n <> 0 /\
    id_keys docs = Some keys /\
    delete_documents (the_search_client a) keys w1 = (w2, Returns r).

(** The only events the script can produce with these arguments. *)
Definition expected (e : event) : Prop :=
  match e with
  | Print _ => True
  | Open file mode encoding _ =>
    file = args.files a /\ mode = "r" /\ encoding = "utf-8-sig"
  | ListIndexNames c _ => c = the_index_client a
  | CreateIndex c idx _ => c = the_index_client a /\ idx = the_index a
  | IndexDocuments c _ _ | UploadDocuments c _ _ => c = the_search_client a
  | SearchCall c text top count _ =>
    c = the_search_client a /\ text = "" /\ top = 1000 /\ count = true
  | DeleteDocuments c ds _ =>
    c = the_search_client a /\
    Forall (fun d : dict => dom d = ({[ "id" ]} : gset string)) ds
  | Sleep secs => secs = 2
  end.
End vocabulary_more.

(** ** A canned service

    It always gives the same answers: no index is listed, every creation
    and every batch is accepted, no file can be opened, and a search
    always finds the same documents, whatever was deleted. *)

Record canned := Canned { canned_count : Z; canned_docs : list dict }.

Definition canned_results {A} (xs : list A) : list IndexingResult :=
  map (fun _ => {| key := ""; succeeded := true |}) xs.

#[global] Instance canned_world : World canned := {
  open_file file _ _ w := (w, Throws (OSError file));
  list_index_names _ w := (w, Returns []);
  create_index _ _ w := (w, Returns tt);
  index_documents _ xs w := (w, Returns (canned_results xs));
  upload_documents _ xs w := (w, Returns (canned_results xs));
  search _ _ _ _ w := (w, Returns (canned_count w, canned_docs w));
  delete_documents _ ds w := (w, Returns (canned_results ds));
  sleep _ w := w }.

(** A stale service: its one document is found again after every
    deletion. *)
Inductive stale := Stale.

#[global] Instance stale_world : World stale := {
  open_file file _ _ w := (w, Throws (OSError file));
  list_index_names _ w := (w, Returns []);
  create_index _ _ w := (w, Returns tt);
  index_documents _ xs w := (w, Returns (canned_results xs));
  upload_documents _ xs w := (w, Returns (canned_results xs));
  search _ _ _ _ w := (w, Returns (1, [ ({[ "id" := PyStr "x" ]} : dict) ]));
  delete_documents _ ds w := (w, Returns (canned_results ds));
  sleep _ w := w }.

Definition keyless_index : canned :=
  Canned 1 [ {[ "name" := PyStr "x" ]} ].

Definition header_only_file : csv_file :=
  {| fieldnames := Some ["id"; "title"]; rows := [] |}.

Definition header_only_mem : mem :=
  Mem {[ "data.csv" := header_only_file ]} [] [].

(** Two runs made the same calls and left the same world. *)
Definition same_calls {W A B} (r1 : run W A) (r2 : run W B) : Prop :=
  calls (trace r1) = calls (trace r2) /\ final r1 = final r2.

(** They also ended the same way. *)
Definition same_run {W A} (r1 r2 : run W A) : Prop :=
  same_calls r1 r2 /\ result r1 = result r2.

(** The sample arguments with every blob option set. *)
Definition blob_args : args.t :=
  {| args.files := "data.csv"; args.category := Some "docs";
     args.skipblobs := true; args.storageaccount := Some "account";
     args.container := Some "content"; args.storagekey := Some "secret";
     args.searchservice := Some "mysearch"; args.index := Some "myindex";
     args.searchkey := None; args.remove := false; args.removeall := false;
     args.verbose := true |}.

Definition nameless_args : args.t :=
  {| args.files := "data.csv"; args.category := None; args.skipblobs := false;
     args.storageaccount := None; args.container := None;
     args.storagekey := None; args.searchservice := Some "mysearch";
     args.index := None; args.searchkey := None;
     args.remove := false; args.removeall := false; args.verbose := false |}.

(** * Properties *)

(** ** The monad *)

Section monad_facts.
Context {W : Type}.

Lemma bind_unfold {A B} (m : M W A) (f : A -> M W B) (w : W) :
  (m ≫= f) w =
  match result (m w) with
  | Ok x => Run (trace (m w) ++ trace (f x (final (m w))))
                (final (f x (final (m w)))) (result (f x (final (m w))))
  | Raise e => Run (trace (m w)) (final (m w)) (Raise e)
  | OutOfFuel => Run (trace (m w)) (final (m w)) OutOfFuel
  end.
Proof. reflexivity. Qed.

Lemma call_run {A} (op : W -> W * reply A) (ev : reply A -> event) w :
  call op ev w = Run [ev (snd (op w))] (fst (op w)) (outcome_of (snd (op w))).
Proof. unfold call. destruct (op w) as [w1 [x|e]]; reflexivity. Qed.

Lemma run_eta {A} (r : run W A) : r = Run (trace r) (final r) (result r).
Proof. destruct r; reflexivity. Qed.

(** Every event of a sequence satisfies [P] when those of its two
    parts do. *)
Lemma bind_events {A B} (P : event -> Prop) (m : M W A) (f : A -> M W B) w :
  Forall P (trace (m w)) ->
  (forall x w1, Forall P (trace (f x w1))) ->
  Forall P (trace ((m ≫= f) w)).
Proof.
  intros Hm Hf. rewrite bind_unfold.
  destruct (result (m w)); simpl; auto.
  apply Forall_app; auto.
Qed.

Lemma when_verbose_events (P : event -> Prop) a line (w : W) :
  (forall objs, P (Print objs)) ->
  Forall P (trace (when_verbose a line w)).
Proof.
  intros HP. unfold when_verbose.
  destruct (args.verbose a); simpl; auto.
Qed.

Lemma call_events {A} (P : event -> Prop)
    (op : W -> W * reply A) (ev : reply A -> event) w :
  (forall r, P (ev r)) -> Forall P (trace (call op ev w)).
Proof.
  intros HP. unfold call. destruct (op w) as [w1 r]. simpl. auto.
Qed.

End monad_facts.

(** ** Credentials *)

(** C9. The choice tests for [None], not for emptiness: an empty key that
    was given yields the key credential built from the empty string. *)
Theorem search_creds_empty_key (a : args.t) :
  args.searchkey a = Some "" ->
  search_creds a = Some (AzureKeyCredential "") /\
  search_creds a <> Some DefaultAzureCredential /\
  default_creds a = None.
Proof.
  intros E. unfold search_creds, default_creds. rewrite E.
  repeat split. discriminate.
Qed.

Lemma search_creds_empty_key_witness :
  args.searchkey (with_searchkey (Some "") sample_args) = Some "" /\
  search_creds (with_searchkey (Some "") sample_args) =
    Some (AzureKeyCredential "").
Proof.
  split; [reflexivity|].
  apply (search_creds_empty_key (with_searchkey (Some "") sample_args)).
  reflexivity.
Defined.

(** ** index_sections *)

Section index_sections_facts.
Context {W : Type} `{World W}.
Variable a : args.t.

Lemma uploads_app (t1 t2 : list event) :
  uploads (t1 ++ t2) = uploads t1 ++ uploads t2.
Proof. apply omap_app. Qed.

Lemma when_verbose_run line (w : W) :
  exists t, when_verbose a line w = Run t w (Ok tt) /\
            (t = [] \/ t = [Print [Text line]]).
Proof.
  unfold when_verbose. destruct (args.verbose a); eexists; split; eauto.
Qed.

(** One turn of the loop either only extends the pending batch, or sends
    a batch of exactly 1000 actions and starts an empty one. *)
Lemma loop_body_run (s : dict) (st : locals) (w : W) :
  pending_ok st ->
  let r := loop_body a s st w in
  (trace r = [] /\ final r = w /\
   exists st1, result r = Ok st1 /\ pending_ok st1 /\ i st1 = i st + 1 /\
     batch st1 = batch st ++ [upload s] /\
     results st1 = results st /\ succeeded_count st1 = succeeded_count st)
  \/
  (Z.of_nat (length (batch st ++ [upload s])) = 1000 /\
   exists rep t,
     trace r = IndexDocuments (the_search_client a) (batch st ++ [upload s]) rep
                 :: t /\
     Forall (fun e => exists o, e = Print o) t /\
     match rep with
     | Returns res =>
       exists st1, result r = Ok st1 /\ pending_ok st1 /\ i st1 = i st + 1 /\
         batch st1 = [] /\ results st1 = Some res /\
         succeeded_count st1 = Some (count_succeeded res)
     | Throws e => result r = Raise e /\ t = []
     end).
Proof.
  intros Hinv r. subst r. unfold loop_body, pending_ok in *.
  destruct (Z.eqb_spec ((i st + 1) mod 1000) 0) as [Hz|Hnz].
  - right. split.
    { rewrite length_app. simpl. rewrite Nat2Z.inj_add. simpl.
      revert Hinv Hz. generalize (Z.of_nat (length (batch st))). intros n.
      intros -> Hz. Z.to_euclidean_division_equations. lia. }
    rewrite bind_unfold. unfold call.
    destruct (index_documents (the_search_client a) (batch st ++ [upload s]) w)
      as [w1 [res|e]]; simpl.
    + rewrite bind_unfold.
      destruct (when_verbose_run (indexed_line res (count_succeeded res)) w1)
        as (t & -> & Ht). simpl.
      exists (Returns res), (t ++ []). split; [reflexivity|].
      rewrite app_nil_r.
      split; [destruct Ht; subst; eauto|].
      eexists. split; [reflexivity|]. simpl. rewrite Hz. auto.
    + exists (Throws e), []. simpl. auto.
  - left. simpl. repeat split. eexists. split; [reflexivity|]. simpl.
    repeat split; auto.
    rewrite length_app. simpl. rewrite Nat2Z.inj_add. simpl.
    revert Hinv Hnz. generalize (Z.of_nat (length (batch st))). intros n.
    intros -> Hnz. Z.to_euclidean_division_equations. lia.
Qed.

(** The whole loop: every batch it sends has 1000 actions, it never makes
    the trailing call, and what was sent together with what is pending is
    the input, in order.  When a call throws, the loop stops there. *)
Lemma for_sections_run (sections : list dict) :
  forall (st : locals) (w : W),
  pending_ok st ->
  let r := for_sections a sections st w in
  Forall (fun b => Z.of_nat (length b) = 1000) (uploads (trace r)) /\
  omap trailing_flushed (trace r) = [] /\
  Forall (fun e => is_upload e = true \/ exists o, e = Print o) (trace r) /\
  match result r with
  | Ok st1 =>
    pending_ok st1 /\ i st1 = i st + Z.of_nat (length sections) /\
    forallb returned (trace r) = true /\
    concat (uploads (trace r)) ++ batch st1 =
      batch st ++ map upload sections /\
    (uploads (trace r) = [] ->
       results st1 = results st /\ succeeded_count st1 = succeeded_count st) /\
    (uploads (trace r) <> [] ->
       is_Some (results st1) /\ is_Some (succeeded_count st1))
  | Raise e =>
    forallb returned (trace r) = false /\
    exists rest,
      concat (uploads (trace r)) ++ rest = batch st ++ map upload sections
  | OutOfFuel => False
  end.
Proof.
  induction sections as [|s rest IH]; intros st w Hinv; simpl.
  - split; [constructor|]. split; [reflexivity|]. split; [constructor|].
    split; [exact Hinv|]. split; [lia|]. split; [reflexivity|].
    split; [rewrite app_nil_r; reflexivity|]. split; [auto|].
    intros Hne. exfalso. apply Hne. reflexivity.
  - rewrite bind_unfold.
    destruct (loop_body_run s st w Hinv)
      as [(Ht & Hw & st1 & Hr & Hinv1 & Hi & Hb & Hres & Hsuc)
         |(Hlen & rep & t & Ht & Hpr & Hrep)].
    + rewrite Hr, Ht, Hw. simpl.
      specialize (IH st1 w Hinv1). simpl in IH.
      destruct IH as (F1 & F2 & F3 & F4).
      split; [exact F1|]. split; [exact F2|]. split; [exact F3|].
      destruct (result (for_sections a rest st1 w)) as [st2| |]; auto.
      * destruct F4 as (G1 & G2 & G3 & G4 & G5 & G6).
        split; [exact G1|]. split; [lia|]. split; [exact G3|].
        split; [rewrite G4, Hb, <- app_assoc; reflexivity|].
        rewrite <- Hres, <- Hsuc. auto.
      * destruct F4 as (G1 & r0 & G2). split; [exact G1|].
        exists r0. rewrite G2, Hb, <- app_assoc. reflexivity.
    + destruct rep as [res|e].
      * destruct Hrep as (st1 & Hr & Hinv1 & Hi & Hb & Hres & Hsuc).
        rewrite Hr, Ht. simpl.
        specialize (IH st1 (final (loop_body a s st w)) Hinv1). simpl in IH.
        set (r2 := for_sections a rest st1 (final (loop_body a s st w))) in *.
        destruct IH as (F1 & F2 & F3 & F4).
        assert (Hup : uploads t = []).
        { clear -Hpr. induction Hpr as [|e t [o ->] _ IH]; auto. }
        assert (Ht0 : omap trailing_flushed t = []).
        { clear -Hpr. induction Hpr as [|e t [o ->] _ IH]; auto. }
        assert (Hret : forallb returned t = true).
        { clear -Hpr. induction Hpr as [|e t [o ->] _ IH]; auto. }
        assert (Ht1 : Forall (fun e => is_upload e = true \/
                                       exists o, e = Print o) t).
        { clear -Hpr. induction Hpr as [|e t [o ->] _ IH]; eauto. }
        rewrite uploads_app, Hup. simpl.
        rewrite omap_app, F2, app_nil_r.
        split; [constructor; auto|]. split; [exact Ht0|].
        split; [constructor; [left; reflexivity|apply Forall_app; auto]|].
        destruct (result r2) as [st2| |]; auto.
        -- destruct F4 as (G1 & G2 & G3 & G4 & G5 & G6).
           rewrite forallb_app, Hret, G3.
           split; [exact G1|]. split; [lia|]. split; [reflexivity|].
           split.
           { rewrite <- !app_assoc. rewrite G4, Hb. reflexivity. }
           split; [intros; discriminate|]. intros _.
           destruct (uploads (trace r2)) eqn:E.
           ++ destruct (G5 eq_refl) as [-> ->]. rewrite Hres, Hsuc. eauto.
           ++ apply G6. discriminate.
        -- destruct F4 as (G1 & r0 & G2).
           rewrite forallb_app, G1, andb_false_r. split; [reflexivity|].
           exists r0. rewrite <- !app_assoc. rewrite G2, Hb. reflexivity.
      * destruct Hrep as (Hr & ->). rewrite Hr, Ht. simpl.
        split; [constructor; auto|]. split; [reflexivity|].
        split; [constructor; [left; reflexivity|constructor]|].
        split; [reflexivity|].
        exists (map upload rest). rewrite app_nil_r, <- app_assoc. reflexivity.
Qed.

Lemma final_flush_run (st : locals) (w : W) :
  let r := final_flush a st w in
  (batch st = [] /\ r = Run [] w (Ok st)) \/
  (batch st <> [] /\
   exists rep,
     trace r = [UploadDocuments (the_search_client a) (batch st) rep] /\
     match rep with
     | Returns res =>
       exists st1, result r = Ok st1 /\ results st1 = Some res /\
                   succeeded_count st1 = Some (count_succeeded res)
     | Throws e => result r = Raise e
     end).
Proof.
  unfold final_flush. destruct (batch st) as [|x b] eqn:E; simpl.
  - left. auto.
  - right. split; [discriminate|].
    replace (0 <? Z.pos (Pos.of_succ_nat (length b))) with true
      by (symmetry; apply Z.ltb_lt; lia).
    rewrite bind_unfold. unfold call.
    destruct (upload_documents (the_search_client a) (x :: b) w)
      as [w1 [res|e]]; simpl.
    + exists (Returns res). split; [reflexivity|]. eexists.
      split; [reflexivity|]. simpl. auto.
    + exists (Throws e). auto.
Qed.

Lemma final_report_run (st : locals) (w : W) :
  final_report a st w =
  if args.verbose a then
    match results st, succeeded_count st with
    | None, _ => Run [] w (Raise (UnboundLocalError "results"))
    | Some _, None => Run [] w (Raise (UnboundLocalError "succeeded"))
    | Some res, Some ok => Run [Print [Text (indexed_line res ok)]] w (Ok tt)
    end
  else Run [] w (Ok tt).
Proof.
  unfold final_report. destruct (args.verbose a); [|reflexivity].
  destruct (results st), (succeeded_count st); reflexivity.
Qed.

Lemma uploads_no_trailing (t : list event) :
  omap trailing_flushed t = [] -> uploads t = omap loop_flushed t.
Proof.
  induction t as [|e t IH]; [reflexivity|].
  unfold uploads in *. destruct e; simpl; try discriminate; auto.
  intros E. f_equal. auto.
Qed.

Lemma uploads_no_trailing_inv (t : list event) :
  omap loop_flushed t = [] -> uploads t = omap trailing_flushed t.
Proof.
  induction t as [|e t IH]; [reflexivity|].
  unfold uploads in *. destruct e; simpl; try discriminate; auto.
  intros E. f_equal. auto.
Qed.

Lemma concat_length_1000 (U : list (list IndexAction)) :
  Forall (fun b => Z.of_nat (length b) = 1000) U ->
  Z.of_nat (length (concat U)) = 1000 * Z.of_nat (length U).
Proof.
  induction 1 as [|b U Hb _ IH]; simpl; [reflexivity|].
  rewrite length_app, Nat2Z.inj_add, IH, Hb. lia.
Qed.

Lemma lengths_1000 (U : list (list IndexAction)) :
  Forall (fun b => Z.of_nat (length b) = 1000) U ->
  map (fun b => Z.of_nat (length b)) U = replicate (length U) 1000.
Proof.
  induction 1 as [|b U Hb _ IH]; simpl; [reflexivity|].
  rewrite IH, Hb. reflexivity.
Qed.

(** After the loop: at most one trailing call, made exactly when actions
    are pending, then the report. *)
Lemma finish_run (st : locals) (w : W) :
  let r := (final_flush a st ≫= final_report a) w in
  omap loop_flushed (trace r) = [] /\
  Forall (fun e => is_upload e = true \/ exists o, e = Print o) (trace r) /\
  (batch st = [] ->
     omap trailing_flushed (trace r) = [] /\
     forallb returned (trace r) = true /\
     result r =
       if args.verbose a then
         match results st, succeeded_count st with
         | None, _ => Raise (UnboundLocalError "results")
         | Some _, None => Raise (UnboundLocalError "succeeded")
         | Some _, Some _ => Ok tt
         end
       else Ok tt) /\
  (batch st <> [] ->
     omap trailing_flushed (trace r) = [batch st] /\
     (forallb returned (trace r) = true -> result r = Ok tt)).
Proof.
  simpl. rewrite bind_unfold.
  destruct (final_flush_run st w) as [(Eb & Ef)|(Hne & rep & Et & Hrep)].
  - rewrite Ef. simpl. rewrite final_report_run.
    destruct (args.verbose a).
    + destruct (results st), (succeeded_count st); simpl;
        (split; [reflexivity|]); (split; [eauto|]);
        (split; [auto|intros; congruence]).
    + simpl. split; [reflexivity|]. split; [constructor|].
      split; [auto|intros; congruence].
  - rewrite Et. destruct rep as [res|e].
    + destruct Hrep as (st1 & Hr & Hres & Hsuc). rewrite Hr.
      rewrite final_report_run, Hres, Hsuc.
      destruct (args.verbose a); simpl;
        (split; [reflexivity|]);
        (split; [repeat constructor; eauto|]);
        (split; [intros; congruence|auto]).
    + rewrite Hrep. simpl. split; [reflexivity|].
      split; [repeat constructor|].
      split; [intros; congruence|]. intros _. split; [reflexivity|].
      discriminate.
Qed.

(** The whole of [index_sections]: [U] are the batches the loop sent and
    [tl] holds the trailing batch, if one was sent. *)
Lemma index_sections_run (sections : list dict) (w : W) :
  let r := index_sections a sections w in
  let N := Z.of_nat (length sections) in
  exists U tl,
    omap loop_flushed (trace r) = U /\
    omap trailing_flushed (trace r) = tl /\
    uploads (trace r) = U ++ tl /\
    Forall (fun b => Z.of_nat (length b) = 1000) U /\
    Forall (fun e => is_upload e = true \/ exists o, e = Print o) (trace r) /\
    (exists rest, concat (U ++ tl) ++ rest = map upload sections) /\
    (forallb returned (trace r) = true ->
       concat (U ++ tl) = map upload sections /\
       Z.of_nat (length U) = N / 1000 /\
       (if N mod 1000 =? 0 then tl = []
        else exists b, tl = [b] /\ Z.of_nat (length b) = N mod 1000) /\
       result r = (if args.verbose a && (N =? 0)
                   then Raise (UnboundLocalError "results") else Ok tt)).
Proof.
  intros r N. subst r. unfold index_sections.
  set (line := "Indexing sections into search index '" +:+ _).
  destruct (when_verbose_run line w) as (t0 & E0 & Ht0).
  rewrite bind_unfold, E0. simpl.
  assert (P0 : omap loop_flushed t0 = [] /\ omap trailing_flushed t0 = [] /\
               uploads t0 = [] /\ forallb returned t0 = true /\
               Forall (fun e => is_upload e = true \/ exists o, e = Print o) t0).
  { destruct Ht0; subst; simpl; repeat split; eauto. }
  destruct P0 as (P1 & P2 & P3 & P4 & P5). clear Ht0 E0.
  rewrite bind_unfold.
  assert (I0 : pending_ok (Locals [] 0 None None)) by reflexivity.
  pose proof (for_sections_run sections _ w I0) as (F1 & F2 & F3 & F4).
  set (r1 := for_sections a sections (Locals [] 0 None None) w) in *.
  pose proof (uploads_no_trailing _ F2) as F5.
  destruct (result r1) as [st1|e|] eqn:ER; [| |contradiction].
  - destruct F4 as (G1 & G2 & G3 & G4 & G5 & G6). simpl in G2, G4.
    pose proof (finish_run st1 (final r1)) as (Q1 & Q2 & Q3 & Q4).
    set (r2 := (final_flush a st1 ≫= final_report a) (final r1)) in *.
    cbn [trace result final].
    rewrite !uploads_app, !omap_app, P1, P2, P3, F2, Q1, <- F5. simpl.
    rewrite app_nil_r.
    assert (Hlen : 1000 * Z.of_nat (length (uploads (trace r1)))
                   + Z.of_nat (length (batch st1)) = N).
    { rewrite <- concat_length_1000 by exact F1.
      rewrite <- Nat2Z.inj_add, <- length_app, G4, length_map. reflexivity. }
    assert (Hmod : Z.of_nat (length (batch st1)) = N mod 1000).
    { unfold pending_ok in G1. rewrite G1, G2. reflexivity. }
    assert (Hdiv : Z.of_nat (length (uploads (trace r1))) = N / 1000).
    { revert Hlen Hmod. generalize (Z.of_nat (length (uploads (trace r1)))).
      generalize (Z.of_nat (length (batch st1))). intros n u Hlen Hmod.
      Z.to_euclidean_division_equations. lia. }
    exists (uploads (trace r1)), (omap trailing_flushed (trace r2)).
    split; [reflexivity|]. split; [reflexivity|].
    split.
    { f_equal. apply uploads_no_trailing_inv. exact Q1. }
    split; [exact F1|].
    split; [repeat (apply Forall_app; split); auto|].
    destruct (batch st1) as [|x b] eqn:EB.
    + destruct (Q3 eq_refl) as (T1 & T2 & T3). rewrite T1.
      rewrite app_nil_r in G4 |- *.
      split; [exists []; rewrite app_nil_r; exact G4|].
      intros _. split; [exact G4|]. split; [exact Hdiv|].
      simpl in Hmod. rewrite <- Hmod. simpl. split; [reflexivity|].
      rewrite T3. destruct (args.verbose a); simpl; [|reflexivity].
      destruct (uploads (trace r1)) as [|b0 U] eqn:EU.
      * destruct (G5 eq_refl) as [-> _]. simpl.
        replace (N =? 0) with true; [reflexivity|].
        symmetry. apply Z.eqb_eq. simpl in Hlen. lia.
      * destruct G6 as [[res ->] [ok ->]]; [discriminate|].
        replace (N =? 0) with false; [reflexivity|].
        symmetry. apply Z.eqb_neq. simpl length in Hlen. lia.
    + assert (Hne : x :: b <> []) by discriminate.
      destruct (Q4 Hne) as (T1 & T2). rewrite T1.
      split.
      { exists []. rewrite app_nil_r. rewrite concat_app. simpl.
        rewrite app_nil_r. exact G4. }
      rewrite !forallb_app, P4, G3. simpl. intros Hret.
      split.
      { rewrite concat_app. simpl. rewrite app_nil_r. exact G4. }
      split; [exact Hdiv|].
      assert (Hpos : 0 < N mod 1000) by (rewrite <- Hmod; simpl; lia).
      replace (N mod 1000 =? 0) with false
        by (symmetry; apply Z.eqb_neq; lia).
      split; [eauto|].
      rewrite (T2 Hret).
      replace (N =? 0) with false; [rewrite andb_false_r; reflexivity|].
      symmetry. apply Z.eqb_neq. intros ->. simpl in Hpos. lia.
  - destruct F4 as (G1 & rest & G2). simpl in G2. simpl.
    rewrite !uploads_app, !omap_app, P1, P2, P3, F2, <- F5. simpl.
    exists (uploads (trace r1)), [].
    split; [reflexivity|]. split; [reflexivity|].
    split; [rewrite app_nil_r; reflexivity|].
    split; [exact F1|].
    split; [apply Forall_app; auto|].
    split; [exists rest; rewrite app_nil_r; exact G2|].
    rewrite forallb_app, G1, andb_false_r. discriminate.
Qed.
(** C1. When every call returns, [index_sections] on [N] records makes
    [N / 1000] loop calls of 1000 actions each, followed by one trailing
    call with the [N mod 1000] remaining actions exactly when that
    remainder is not zero: [ceil (N / 1000)] calls in all.  So 2500
    records give three calls of sizes 1000, 1000 and 500, and no record
    gives no call. *)
Theorem index_sections_upload_calls (sections : list dict) (w : W) :
  let r := index_sections a sections w in
  let N := Z.of_nat (length sections) in
  let sizes := map (fun b : list IndexAction => Z.of_nat (length b)) in
  forallb returned (trace r) = true ->
  uploads (trace r) =
    omap loop_flushed (trace r) ++ omap trailing_flushed (trace r) /\
  sizes (omap loop_flushed (trace r)) = replicate (Z.to_nat (N / 1000)) 1000 /\
  sizes (omap trailing_flushed (trace r)) =
    (if N mod 1000 =? 0 then [] else [N mod 1000]) /\
  Z.of_nat (length (uploads (trace r))) =
    (if N mod 1000 =? 0 then N / 1000 else N / 1000 + 1) /\
  Z.of_nat (length (uploads (trace r))) = (N + 999) / 1000 /\
  (N = 2500 -> sizes (uploads (trace r)) = [1000; 1000; 500]) /\
  (N = 0 -> uploads (trace r) = []).
Proof.
  intros r N sizes Hret.
  destruct (index_sections_run sections w)
    as (U & tl & HU & Htl & Hup & H1000 & _ & _ & Hok).
  fold r in HU, Htl, Hup, Hok. fold N in Hok.
  destruct (Hok Hret) as (_ & Hdiv & Hrem & _). clear Hok.
  rewrite HU, Htl, Hup. unfold sizes.
  assert (HlenU : length U = Z.to_nat (N / 1000)) by lia.
  assert (HsU : map (fun b : list IndexAction => Z.of_nat (length b)) U
                = replicate (Z.to_nat (N / 1000)) 1000).
  { rewrite (lengths_1000 U H1000), HlenU. reflexivity. }
  assert (Hstl : map (fun b : list IndexAction => Z.of_nat (length b)) tl
                 = if N mod 1000 =? 0 then [] else [N mod 1000]).
  { destruct (N mod 1000 =? 0).
    - rewrite Hrem. reflexivity.
    - destruct Hrem as (b & Eb & Hb). rewrite Eb. simpl. rewrite Hb.
      reflexivity. }
  assert (Hcount : Z.of_nat (length (U ++ tl)) =
                   if N mod 1000 =? 0 then N / 1000 else N / 1000 + 1).
  { rewrite length_app, Nat2Z.inj_add, Hdiv.
    destruct (N mod 1000 =? 0).
    - rewrite Hrem. simpl. lia.
    - destruct Hrem as (b & Eb & _). rewrite Eb. simpl. lia. }
  split; [reflexivity|]. split; [exact HsU|]. split; [exact Hstl|].
  split; [exact Hcount|].
  split.
  { rewrite Hcount. destruct (Z.eqb_spec (N mod 1000) 0) as [E|E];
      Z.to_euclidean_division_equations; lia. }
  split.
  - intros E. rewrite map_app, HsU, Hstl, E. reflexivity.
  - intros E. rewrite E in *. simpl in HlenU.
    destruct U; [|discriminate]. simpl in Hrem. rewrite Hrem. reflexivity.
Qed.

(** C10. When every call returns, the batches sent, taken in the order of
    the calls and laid end to end, are the input records: none is lost,
    none is sent twice, and their order is kept. *)
Theorem index_sections_partitions_input (sections : list dict) (w : W) :
  let r := index_sections a sections w in
  forallb returned (trace r) = true ->
  map document (concat (uploads (trace r))) = sections.
Proof.
  intros r Hret.
  destruct (index_sections_run sections w)
    as (U & tl & _ & _ & Hup & _ & _ & _ & Hok).
  fold r in Hup, Hok. destruct (Hok Hret) as (Hcat & _).
  rewrite Hup, Hcat, map_map. simpl. apply map_id.
Qed.

(** Even when a call throws, what was sent is an initial part of the
    input. *)
Lemma index_sections_sends_prefix (sections : list dict) (w : W) :
  exists rest,
    map document (concat (uploads (trace (index_sections a sections w))))
      ++ rest = sections.
Proof.
  destruct (index_sections_run sections w)
    as (U & tl & _ & _ & Hup & _ & _ & (rest & Hpre) & _).
  exists (map document rest).
  rewrite Hup, <- map_app, Hpre, map_map. simpl. apply map_id.
Qed.

(** C8. With verbose output and no record at all, [index_sections] ends
    in an unbound-variable error on [results]: no call was made, in the
    loop or after it, so nothing ever assigned the variable that the last
    report reads. *)
Theorem index_sections_empty_verbose_unbound (w : W) :
  args.verbose a = true ->
  let r := index_sections a [] w in
  result r = Raise (UnboundLocalError "results") /\
  uploads (trace r) = [] /\
  final r = w /\
  trace r = [Print [Text ("Indexing sections into search index '"
                            +:+ py_str (args.index a) +:+ "'")]].
Proof.
  intros Hv r. subst r.
  unfold index_sections, when_verbose, final_report. rewrite Hv.
  repeat split.
Qed.

(** Without verbose output the same call returns quietly. *)
Lemma index_sections_empty_quiet (w : W) :
  args.verbose a = false -> index_sections a [] w = Run [] w (Ok tt).
Proof.
  intros Hv. unfold index_sections, when_verbose, final_report.
  rewrite Hv. reflexivity.
Qed.
End index_sections_facts.

Lemma index_sections_upload_calls_witness :
  forallb returned
    (trace (index_sections sample_args (sample_rows 2500) empty_mem)) = true /\
  map (fun b : list IndexAction => Z.of_nat (length b))
    (uploads (trace (index_sections sample_args (sample_rows 2500) empty_mem)))
  = [1000; 1000; 500].
Proof.
  assert (Hret : forallb returned
            (trace (index_sections sample_args (sample_rows 2500) empty_mem))
          = true) by (vm_compute; reflexivity).
  split; [exact Hret|].
  destruct (index_sections_upload_calls sample_args (sample_rows 2500)
              empty_mem Hret) as (_ & _ & _ & _ & _ & H2500 & _).
  apply H2500. vm_compute. reflexivity.
Defined.

Lemma index_sections_partitions_input_witness :
  map document
    (concat (uploads
       (trace (index_sections sample_args (sample_rows 1001) empty_mem))))
  = sample_rows 1001.
Proof.
  apply (index_sections_partitions_input sample_args (sample_rows 1001)
           empty_mem).
  vm_compute. reflexivity.
Defined.

Lemma index_sections_empty_verbose_unbound_witness :
  result (index_sections sample_args [] empty_mem)
  = Raise (UnboundLocalError "results").
Proof.
  apply (index_sections_empty_verbose_unbound sample_args empty_mem).
  reflexivity.
Defined.

(** ** create_search_index *)

Section create_search_index_facts.
Context {W : Type} `{World W}.
Variable a : args.t.

Lemma when_verbose_said line (w : W) :
  when_verbose a line w = Run (said a line) w (Ok tt).
Proof. unfold when_verbose, said. destruct (args.verbose a); reflexivity. Qed.

Lemma creations_app (t1 t2 : list event) :
  creations (t1 ++ t2) = (creations t1 + creations t2)%nat.
Proof. unfold creations. rewrite List.filter_app, length_app. reflexivity. Qed.

Lemma creations_said line : creations (said a line) = 0%nat.
Proof. unfold said. destruct (args.verbose a); reflexivity. Qed.

Lemma returned_said line : forallb returned (said a line) = true.
Proof. unfold said. destruct (args.verbose a); reflexivity. Qed.

(** The run of [create_search_index], call by call. *)
Lemma create_search_index_run (w : W) :
  create_search_index a w =
  let c := the_index_client a in
  let t0 := said a ("Ensuring search index " +:+ py_str (args.index a)
                      +:+ " exists") in
  match list_index_names c w with
  | (w1, Throws e) => Run (t0 ++ [ListIndexNames c (Throws e)]) w1 (Raise e)
  | (w1, Returns names) =>
    if index_listed a names then
      Run (t0 ++ ListIndexNames c (Returns names)
              :: said a ("Search index " +:+ py_str (args.index a)
                           +:+ " already exists"))
          w1 (Ok tt)
    else
      match create_index c (the_index a) w1 with
      | (w2, rep) =>
        Run (t0 ++ ListIndexNames c (Returns names)
                :: said a ("Creating " +:+ py_str (args.index a)
                             +:+ " search index")
                ++ [CreateIndex c (the_index a) rep])
            w2 (outcome_of rep)
      end
  end.
Proof.
  unfold create_search_index. rewrite bind_unfold, when_verbose_said.
  cbn [trace final result]. rewrite bind_unfold, call_run.
  cbn [trace final result].
  destruct (list_index_names (the_index_client a) w) as [w1 [names|e]];
    cbn [fst snd outcome_of]; [|reflexivity].
  destruct (index_listed a names); cbn [negb].
  - rewrite when_verbose_said. reflexivity.
  - rewrite bind_unfold, when_verbose_said. cbn [trace final result].
    rewrite call_run.
    destruct (create_index (the_index_client a) (the_index a) w1)
      as [w2 rep]; reflexivity.
Qed.

(** One call creates the index exactly when the listing lacks its name. *)
Lemma create_search_index_creations (w : W) :
  creations (trace (create_search_index a w)) =
  match snd (list_index_names (the_index_client a) w) with
  | Returns names => if index_listed a names then 0%nat else 1%nat
  | Throws _ => 0%nat
  end.
Proof.
  rewrite create_search_index_run. simpl.
  destruct (list_index_names (the_index_client a) w) as [w1 [names|e]]; simpl.
  - destruct (index_listed a names); simpl.
    + rewrite creations_app, creations_said.
      change (ListIndexNames ?c ?r :: ?t) with ([ListIndexNames c r] ++ t).
      rewrite creations_app, creations_said. reflexivity.
    + destruct (create_index (the_index_client a) (the_index a) w1)
        as [w2 rep]. simpl.
      rewrite creations_app, creations_said.
      change (ListIndexNames ?c ?r :: ?t) with ([ListIndexNames c r] ++ t).
      rewrite !creations_app, creations_said. reflexivity.
  - rewrite creations_app, creations_said. reflexivity.
Qed.
Ltac split_returned Hret :=
  repeat (progress (rewrite ?forallb_app, ?returned_said in Hret;
                    cbn [forallb returned replied andb] in Hret)).

(** C5. [create_search_index] makes one creation call when the listing
    lacks the index name and none when it has it.  Over a service whose
    listing follows its creations, and when no call throws, calling it
    twice in a row returns normally and the second call creates nothing:
    the two calls together create as much as the first alone, at most one
    index. *)
Theorem create_search_index_idempotent (w : W) :
  let r1 := create_search_index a w in
  let r2 := (create_search_index a ≫= fun _ => create_search_index a) w in
  listing_consistent a ->
  forallb returned (trace r2) = true ->
  (exists names,
     snd (list_index_names (the_index_client a) w) = Returns names /\
     creations (trace r1) = if index_listed a names then 0%nat else 1%nat) /\
  result r1 = Ok tt /\
  result r2 = Ok tt /\
  creations (trace (create_search_index a (final r1))) = 0%nat /\
  creations (trace r2) = creations (trace r1) /\
  (creations (trace r2) <= 1)%nat.
Proof.
  intros r1 r2 [Hstay Hnew] Hret.
  assert (Hr2 : r2 = (create_search_index a ≫= fun _ => create_search_index a) w)
    by reflexivity.
  rewrite bind_unfold in Hr2. fold r1 in Hr2.
  pose proof (create_search_index_creations w) as Hc1. fold r1 in Hc1.
  pose proof (create_search_index_run w) as E1. fold r1 in E1.
  cbn zeta in E1.
  destruct (list_index_names (the_index_client a) w) as [w1 [names|e]] eqn:EL;
    cbn [snd] in Hc1.
  2:{ exfalso. rewrite E1 in Hr2. cbn [result trace final] in Hr2.
      rewrite Hr2 in Hret. cbn [trace] in Hret. split_returned Hret.
      rewrite ?andb_false_r in Hret. discriminate Hret. }
  assert (Hsecond : forall w2,
            final r1 = w2 ->
            (forall w3 names', list_index_names (the_index_client a) w2
                               = (w3, Returns names') ->
                               index_listed a names' = true) ->
            result r1 = Ok tt ->
            result r1 = Ok tt /\ result r2 = Ok tt /\
            creations (trace (create_search_index a (final r1))) = 0%nat /\
            creations (trace r2) = creations (trace r1)).
  { intros w2 Hw2 Hlisted Hok1. rewrite Hok1 in Hr2.
    pose proof (create_search_index_creations w2) as Hc2.
    pose proof (create_search_index_run w2) as E2. cbn zeta in E2.
    rewrite Hw2 in *.
    destruct (list_index_names (the_index_client a) w2)
      as [w3 [names'|e]] eqn:EL2; cbn [snd] in Hc2.
    - rewrite (Hlisted w3 names' eq_refl) in Hc2, E2.
      split; [exact Hok1|]. rewrite Hr2. cbn [result trace].
      split; [rewrite E2; reflexivity|].
      split; [exact Hc2|]. rewrite creations_app, Hc2. lia.
    - exfalso. rewrite Hr2 in Hret. cbn [trace] in Hret.
      rewrite E2 in Hret. cbn [trace] in Hret. split_returned Hret.
      rewrite ?andb_false_r in Hret. discriminate Hret. }
  split; [exists names; split; [reflexivity|exact Hc1]|].
  destruct (index_listed a names) eqn:Hin.
  - rewrite E1 in Hsecond |- *. cbn [result final trace] in Hsecond |- *.
    assert (Hl : forall w3 names',
               list_index_names (the_index_client a) w1 = (w3, Returns names')
               -> index_listed a names' = true).
    { intros w3 names' EL3. exact (Hstay _ _ _ _ _ EL Hin EL3). }
    destruct (Hsecond w1 eq_refl Hl eq_refl) as (S1 & S2 & S3 & S4).
    rewrite E1 in Hc1. cbn [trace] in Hc1.
    repeat split; auto. rewrite S4, Hc1. lia.
  - destruct (create_index (the_index_client a) (the_index a) w1)
      as [w2 [[]|e]] eqn:EC.
    + rewrite E1 in Hsecond |- *. cbn [result final trace outcome_of] in Hsecond |- *.
      assert (Hl : forall w3 names',
                 list_index_names (the_index_client a) w2
                 = (w3, Returns names') -> index_listed a names' = true).
      { intros w3 names' EL3. exact (Hnew _ _ _ _ EC EL3). }
      destruct (Hsecond w2 eq_refl Hl eq_refl) as (S1 & S2 & S3 & S4).
      rewrite E1 in Hc1. cbn [trace] in Hc1.
      repeat split; auto. rewrite S4, Hc1. lia.
    + exfalso. rewrite E1 in Hr2. cbn [result trace final outcome_of] in Hr2.
      rewrite Hr2 in Hret. cbn [trace] in Hret. split_returned Hret.
      rewrite ?andb_false_r in Hret. discriminate Hret.
Qed.
End create_search_index_facts.

(** ** remove_from_index *)

Section remove_from_index_facts.
Context {W : Type} `{World W}.
Variable a : args.t.

Lemma getitem_run (d : dict) (k : string) (w : W) :
  getitem d k w =
  Run [] w (match d !! k with Some v => Ok v | None => Raise (KeyError k) end).
Proof. unfold getitem. destruct (d !! k); reflexivity. Qed.

Lemma id_only_run (d : dict) (w : W) :
  id_only d w =
  Run [] w (match d !! "id" with
            | Some v => Ok ({[ "id" := v ]} : dict)
            | None => Raise (KeyError "id")
            end).
Proof.
  unfold id_only. rewrite bind_unfold, getitem_run.
  destruct (d !! "id"); reflexivity.
Qed.

Lemma comprehension_id_only (docs : list dict) (w : W) :
  comprehension id_only docs w =
  Run [] w (match id_keys docs with
            | Some keys => Ok keys
            | None => Raise (KeyError "id")
            end).
Proof.
  induction docs as [|d docs IH]; [reflexivity|].
  cbn [comprehension id_keys]. rewrite bind_unfold, id_only_run.
  cbn [trace final result].
  destruct (d !! "id") as [v|]; [|reflexivity].
  rewrite bind_unfold, IH. cbn [trace final result].
  destruct (id_keys docs); reflexivity.
Qed.

(** One turn of [while True], call by call. *)
Lemma purge_loop_turn (fuel : nat) (w : W) :
  purge_loop a (S fuel) w =
  let c := the_search_client a in
  match search c "" 1000 true w with
  | (w1, Throws e) => Run [SearchCall c "" 1000 true (Throws e)] w1 (Raise e)
  | (w1, Returns (n, docs)) =>
    let found := SearchCall c "" 1000 true (Returns (n, docs)) in
    if n =? 0 then Run [found] w1 (Ok tt)
    else
      match id_keys docs with
      | None => Run [found] w1 (Raise (KeyError "id"))
      | Some keys =>
        match delete_documents c keys w1 with
        | (w2, Throws e) =>
          Run [found; DeleteDocuments c keys (Throws e)] w2 (Raise e)
        | (w2, Returns r) =>
          let rest := purge_loop a fuel (sleep 2 w2) in
          Run (found :: DeleteDocuments c keys (Returns r)
                 :: said a (removed_line r) ++ Sleep 2 :: trace rest)
              (final rest) (result rest)
        end
      end
  end.
Proof.
  cbn [purge_loop]. rewrite bind_unfold, call_run.
  cbn [trace final result].
  destruct (search (the_search_client a) "" 1000 true w)
    as [w1 [[n docs]|e]]; cbn [fst snd outcome_of]; [|reflexivity].
  destruct (n =? 0); [reflexivity|].
  rewrite bind_unfold, comprehension_id_only. cbn [trace final result].
  destruct (id_keys docs) as [keys|]; [|reflexivity].
  rewrite bind_unfold, call_run. cbn [trace final result].
  destruct (delete_documents (the_search_client a) keys w1)
    as [w2 [r|e]]; cbn [fst snd outcome_of]; [|reflexivity].
  rewrite bind_unfold, when_verbose_said. cbn [trace final result].
  rewrite bind_unfold. unfold time_sleep. cbn [trace final result].
  destruct (result (purge_loop a fuel (sleep 2 w2))); cbn [trace final result];
    rewrite <- ?app_assoc; reflexivity.
Qed.

Lemma purge_trace_last (t : list event) :
  purge_trace a t ->
  exists docs,
    last t = Some (SearchCall (the_search_client a) "" 1000 true
                     (Returns (0, docs))).
Proof.
  induction 1 as [docs|n docs keys r t Hn Hk Ht [docs' IH]].
  - exists docs. reflexivity.
  - exists docs'.
    change (SearchCall ?c ?s ?k ?b ?rep :: DeleteDocuments ?c' ?ks ?rep'
              :: ?l ++ Sleep 2 :: t)
      with ([SearchCall c s k b rep; DeleteDocuments c' ks rep']
              ++ l ++ [Sleep 2] ++ t).
    rewrite !last_app, IH. reflexivity.
Qed.

(** With [S m] turns of fuel the loop of an index that drains within
    [m] returns, and more fuel changes nothing. *)
Lemma purge_loop_terminates (mu : W -> nat) :
  drains a mu ->
  forall (m : nat) (w : W), (mu w <= m)%nat ->
  result (purge_loop a (S m) w) = Ok tt /\
  purge_trace a (trace (purge_loop a (S m) w)) /\
  forall fuel, (S m <= fuel)%nat ->
    purge_loop a fuel w = purge_loop a (S m) w.
Proof.
  intros Hd. induction m as [|m IH]; intros w Hm.
  - destruct (Hd w) as (w1 & n & docs & Es & Hturn).
    destruct (Z.eqb_spec n 0) as [->|Hn].
    + split; [|split].
      * rewrite purge_loop_turn. cbn zeta. rewrite Es. reflexivity.
      * rewrite purge_loop_turn. cbn zeta. rewrite Es. constructor.
      * intros [|fuel] Hf; [lia|].
        rewrite !purge_loop_turn. cbn zeta. rewrite Es. reflexivity.
    + destruct (Hturn Hn) as (keys & w2 & r & _ & _ & Hlt). lia.
  - destruct (Hd w) as (w1 & n & docs & Es & Hturn).
    destruct (Z.eqb_spec n 0) as [->|Hn].
    + split; [|split].
      * rewrite purge_loop_turn. cbn zeta. rewrite Es. reflexivity.
      * rewrite purge_loop_turn. cbn zeta. rewrite Es. constructor.
      * intros [|fuel] Hf; [lia|].
        rewrite !purge_loop_turn. cbn zeta. rewrite Es. reflexivity.
    + destruct (Hturn Hn) as (keys & w2 & r & Hk & Ed & Hlt).
      assert (Hm' : (mu (sleep 2 w2) <= m)%nat) by lia.
      destruct (IH _ Hm') as (R1 & R2 & R3).
      assert (Hz : (n =? 0) = false) by (apply Z.eqb_neq; exact Hn).
      split; [|split].
      * rewrite purge_loop_turn. cbn zeta. rewrite Es, Hz, Hk, Ed.
        exact R1.
      * rewrite purge_loop_turn. cbn zeta. rewrite Es, Hz, Hk, Ed.
        cbn [trace]. constructor; assumption.
      * intros [|fuel] Hf; [lia|].
        rewrite !purge_loop_turn. cbn zeta. rewrite Es, Hz, Hk, Ed.
        rewrite (R3 fuel) by lia. reflexivity.
Qed.

(** C3. Over an index that drains, [remove_from_index] returns after
    finitely many turns, at most one more than the measure of the index.
    Each turn searches with the empty query for up to 1000 documents and
    the total count; a count that is not zero is followed by the deletion
    of the documents found, by their ids, and a sleep of two seconds; the
    loop stops at the first count of zero, which is therefore the last
    thing the run observed. *)
Theorem remove_from_index_terminates (mu : W -> nat) (w : W) :
  drains a mu ->
  exists fuel, (fuel <= S (mu w))%nat /\
    let r := remove_from_index a fuel w in
    result r = Ok tt /\
    (exists t,
       trace r = said a ("Removing all documents from search index '"
                           +:+ py_str (args.index a) +:+ "'") ++ t /\
       purge_trace a t) /\
    (exists docs,
       last (trace r) = Some (SearchCall (the_search_client a) "" 1000 true
                                (Returns (0, docs)))) /\
    (forall fuel', (fuel <= fuel')%nat -> remove_from_index a fuel' w = r).
Proof.
  intros Hd. exists (S (mu w)). split; [lia|].
  destruct (purge_loop_terminates mu Hd (mu w) w (Nat.le_refl _))
    as (R1 & R2 & R3).
  unfold remove_from_index. cbn zeta.
  rewrite bind_unfold, when_verbose_said. cbn [trace final result].
  split; [exact R1|]. split; [eauto|]. split.
  - destruct (purge_trace_last _ R2) as (docs & Hl). exists docs.
    rewrite last_app, Hl. reflexivity.
  - intros fuel' Hf. rewrite bind_unfold, when_verbose_said.
    cbn [trace final result]. rewrite (R3 fuel' Hf). reflexivity.
Qed.
End remove_from_index_facts.

(** ** The reference world behaves *)

Lemma drop_key_length (k : string) (st : list (string * dict)) :
  (length (drop_key k st) <= length st)%nat.
Proof.
  induction st as [|p st IH]; simpl; [lia|].
  destruct (negb (String.eqb (fst p) k)); simpl; lia.
Qed.

Lemma mem_delete_all_length (ds : list dict) :
  forall st, (length (fst (mem_delete_all ds st)) <= length st)%nat.
Proof.
  induction ds as [|d ds IH]; intros st; simpl; [lia|].
  destruct (mem_delete_one d st) as [st1 r] eqn:E1.
  specialize (IH st1).
  destruct (mem_delete_all ds st1) as [st2 rs]. simpl in *.
  assert ((length st1 <= length st)%nat); [|lia].
  unfold mem_delete_one in E1. destruct (doc_id d); inversion E1; subst.
  - apply drop_key_length.
  - lia.
Qed.

Lemma id_keys_found (l : list (string * dict)) :
  id_keys (map mem_found l) =
  Some (map (fun p => ({[ "id" := PyStr (fst p) ]} : dict)) l).
Proof.
  induction l as [|p l IH]; [reflexivity|].
  cbn [map id_keys]. rewrite IH. unfold mem_found at 1.
  rewrite lookup_insert_eq. reflexivity.
Qed.

Lemma mem_drains (a : args.t) :
  drains (W := mem) a (fun w => length (store w)).
Proof.
  intros w.
  exists w, (Z.of_nat (length (store w))),
    (map mem_found (take (Z.to_nat 1000) (store w))).
  split; [reflexivity|]. intros Hn.
  destruct (store w) as [|p rest] eqn:Es; [simpl in Hn; lia|].
  assert (E1000 : Z.to_nat 1000 = S 999) by reflexivity.
  rewrite E1000. cbn [take].
  set (ks := map (fun p => ({[ "id" := PyStr (fst p) ]} : dict))
                 (take 999 rest)).
  set (k0 := ({[ "id" := PyStr (fst p) ]} : dict)).
  exists (k0 :: ks).
  destruct (mem_delete_all (k0 :: ks) (store w)) as [st rs] eqn:Ed.
  exists (Mem (disk w) (listing w) st), rs.
  split; [apply (id_keys_found (p :: take 999 rest))|].
  split.
  - cbn [delete_documents mem_world]. unfold mem_delete. rewrite Ed.
    reflexivity.
  - cbn [sleep mem_world store]. rewrite Es in Ed.
    cbn [mem_delete_all] in Ed.
    assert (E1 : mem_delete_one k0 (p :: rest)
                 = (drop_key (fst p) rest,
                    {| key := fst p; succeeded := true |})).
    { unfold mem_delete_one, doc_id, k0. rewrite lookup_singleton_eq.
      unfold drop_key. cbn [List.filter]. rewrite String.eqb_refl.
      reflexivity. }
    rewrite E1 in Ed.
    pose proof (mem_delete_all_length ks (drop_key (fst p) rest)) as Hl.
    destruct (mem_delete_all ks (drop_key (fst p) rest)) as [st2 rs2].
    inversion Ed; subst. cbn [fst] in Hl.
    pose proof (drop_key_length (fst p) rest). simpl. lia.
Qed.

Lemma mem_listing_consistent (a : args.t) :
  listing_consistent (W := mem) a.
Proof.
  split.
  - intros w w1 names w2 names' E1 Hin E2.
    cbn [list_index_names mem_world] in E1, E2.
    inversion E1; subst. inversion E2; subst. exact Hin.
  - intros w w1 w2 names Ec El.
    cbn [create_index list_index_names mem_world] in Ec, El.
    unfold mem_create, the_index in Ec. cbn [name] in Ec.
    unfold index_listed.
    destruct (args.index a) as [n|]; [|discriminate Ec].
    destruct (bool_decide (n ∈ listing w)); [discriminate Ec|].
    inversion Ec; subst. inversion El; subst. cbn [listing].
    apply bool_decide_eq_true. apply list_elem_of_here.
Qed.

Lemma create_search_index_idempotent_witness :
  result ((create_search_index sample_args
             ≫= fun _ => create_search_index sample_args) empty_mem) = Ok tt /\
  creations (trace ((create_search_index sample_args
             ≫= fun _ => create_search_index sample_args) empty_mem)) = 1%nat.
Proof.
  destruct (create_search_index_idempotent sample_args empty_mem
              (mem_listing_consistent sample_args) eq_refl)
    as (_ & _ & Hok & _ & Hsame & _).
  split; [exact Hok|]. rewrite Hsame. reflexivity.
Defined.

Lemma remove_from_index_terminates_witness :
  exists fuel,
    (fuel <= 4)%nat /\
    result (remove_from_index sample_args fuel stocked_mem) = Ok tt.
Proof.
  destruct (remove_from_index_terminates sample_args
              (fun w => length (store w)) stocked_mem
              (mem_drains sample_args))
    as (fuel & Hle & Hok & _).
  exists fuel. split; [exact Hle|exact Hok].
Defined.

(** ** Reading the CSV file and the dispatch *)

Section main_facts.
Context {W : Type} `{World W}.
Variable a : args.t.

Lemma section_of_row_run (row : dict) (w : W) :
  section_of_row row w = Run [] w (outcome_of (row_document row)).
Proof.
  unfold section_of_row, row_document.
  rewrite bind_unfold, getitem_run. cbn [trace final result].
  destruct (row !! "id") as [v1|]; [|reflexivity].
  rewrite bind_unfold, getitem_run. cbn [trace final result].
  destruct (row !! "name") as [v2|]; [|reflexivity].
  rewrite bind_unfold, getitem_run. cbn [trace final result].
  destruct (row !! "description") as [v3|]; reflexivity.
Qed.

Lemma comprehension_section_of_row (rows : list dict) (w : W) :
  comprehension section_of_row rows w =
  Run [] w (outcome_of (rows_documents rows)).
Proof.
  induction rows as [|row rows IH]; [reflexivity|].
  cbn [comprehension rows_documents].
  rewrite bind_unfold, section_of_row_run. cbn [trace final result].
  destruct (row_document row) as [d|e]; [|reflexivity].
  cbn [outcome_of]. rewrite bind_unfold, IH. cbn [trace final result].
  destruct (rows_documents rows); reflexivity.
Qed.

(** The run of the CSV part, step by step: open the file, print its
    header, build one document per row, and hand them to
    [index_sections]. *)
Lemma process_csv_run (w : W) :
  process_csv a w =
  match open_file (args.files a) "r" "utf-8-sig" w with
  | (w1, Throws e) => Run (csv_head a (Throws e)) w1 (Raise e)
  | (w1, Returns f) =>
    match rows_documents (rows f) with
    | Throws e => Run (csv_header a f) w1 (Raise e)
    | Returns sections =>
      let r := index_sections a sections w1 in
      Run (csv_header a f ++ trace r) (final r) (result r)
    end
  end.
Proof.
  unfold process_csv. rewrite bind_unfold. cbn [print trace final result].
  rewrite bind_unfold, call_run. cbn [trace final result].
  destruct (open_file (args.files a) "r" "utf-8-sig" w) as [w1 [f|e]];
    cbn [fst snd outcome_of]; [|reflexivity].
  rewrite bind_unfold. cbn [print trace final result].
  rewrite bind_unfold, comprehension_section_of_row.
  cbn [trace final result].
  destruct (rows_documents (rows f)) as [sections|e]; reflexivity.
Qed.
Lemma said_events (P : event -> Prop) line :
  (forall o, P (Print o)) -> Forall P (said a line).
Proof. intros HP. unfold said. destruct (args.verbose a); auto. Qed.

(** The purge makes no other calls than searches, deletions and sleeps. *)
Lemma purge_loop_events (fuel : nat) :
  forall w : W,
  Forall (fun e => is_purge e = true \/ exists o, e = Print o)
         (trace (purge_loop a fuel w)).
Proof.
  induction fuel as [|fuel IH]; intros w; [constructor|].
  rewrite purge_loop_turn. cbn zeta.
  destruct (search (the_search_client a) "" 1000 true w)
    as [w1 [[n docs]|e]]; [|repeat (constructor; [left; reflexivity|]); constructor].
  destruct (n =? 0); [repeat (constructor; [left; reflexivity|]); constructor|].
  destruct (id_keys docs) as [keys|];
    [|repeat (constructor; [left; reflexivity|]); constructor].
  destruct (delete_documents (the_search_client a) keys w1) as [w2 [r|e]];
    [|repeat (constructor; [left; reflexivity|]); constructor].
  cbn [trace]. constructor; [left; reflexivity|].
  constructor; [left; reflexivity|].
  apply Forall_app. split; [apply said_events; eauto|].
  constructor; [left; reflexivity|]. apply IH.
Qed.

Lemma remove_from_index_events (fuel : nat) (w : W) :
  Forall (fun e => is_purge e = true \/ exists o, e = Print o)
         (trace (remove_from_index a fuel w)).
Proof.
  unfold remove_from_index. apply bind_events.
  - apply when_verbose_events. eauto.
  - intros _ w1. apply purge_loop_events.
Qed.

(** The index step only lists and creates. *)
Lemma create_search_index_events (w : W) :
  Forall (fun e => is_index_management e = true \/ exists o, e = Print o)
         (trace (create_search_index a w)).
Proof.
  unfold create_search_index. apply bind_events.
  - apply when_verbose_events. eauto.
  - intros _ w1. cbn zeta. apply bind_events.
    + apply call_events. intros r. left. reflexivity.
    + intros names w2. destruct (negb (index_listed a names)).
      * apply bind_events; [apply when_verbose_events; eauto|].
        intros _ w3. apply call_events. intros r. left. reflexivity.
      * apply when_verbose_events. eauto.
Qed.

(** The CSV part opens the file and uploads; it neither manages the
    index nor purges. *)
Lemma process_csv_events (w : W) :
  Forall (fun e => is_open e = true \/ is_upload e = true \/
                   exists o, e = Print o)
         (trace (process_csv a w)).
Proof.
  rewrite process_csv_run.
  destruct (open_file (args.files a) "r" "utf-8-sig" w) as [w1 [f|e]].
  - assert (Hh : Forall (fun e => is_open e = true \/ is_upload e = true \/
                                  exists o, e = Print o) (csv_header a f)).
    { unfold csv_header, csv_head. cbn [app].
      constructor; [right; right; eauto|].
      constructor; [left; reflexivity|].
      constructor; [right; right; eauto|]. constructor. }
    destruct (rows_documents (rows f)) as [sections|e]; [|exact Hh].
    cbn [trace]. apply Forall_app. split; [exact Hh|].
    destruct (index_sections_run a sections w1)
      as (U & tl & _ & _ & _ & _ & Hev & _).
    eapply Forall_impl; [exact Hev|]. cbn beta. tauto.
  - unfold csv_head. cbn [trace].
    constructor; [right; right; eauto|].
    constructor; [left; reflexivity|]. constructor.
Qed.

(** The dispatch at the bottom of the script. *)
Lemma main_run (fuel : nat) (w : W) :
  main a fuel w =
  if args.removeall a then remove_from_index a fuel w
  else if args.remove a then process_csv a w
  else (create_search_index a ≫= fun _ => process_csv a) w.
Proof.
  unfold main. destruct (args.removeall a); [reflexivity|].
  destruct (args.remove a); cbn [negb]; [|reflexivity].
  rewrite bind_unfold. cbn [ret trace final result app].
  symmetry. apply run_eta.
Qed.

(** C6. The dispatch: with [--removeall] only the purge runs, and the
    run neither opens the CSV file, nor manages the index, nor uploads.
    Otherwise the run never purges; with [--remove] it skips the index
    step altogether and goes straight to the CSV part; with neither flag
    it first ensures the index and, when that returned, does the CSV
    part.  The CSV part opens the file, prints the header, builds the
    documents and calls [index_sections] on them. *)
Theorem main_dispatch (fuel : nat) (w : W) :
  let r := main a fuel w in
  r = (if args.removeall a then remove_from_index a fuel w
       else if args.remove a then process_csv a w
       else (create_search_index a ≫= fun _ => process_csv a) w) /\
  (if args.removeall a then
     Forall (fun e => is_open e = false /\ is_upload e = false /\
                      is_index_management e = false) (trace r)
   else
     Forall (fun e => is_purge e = false) (trace r) /\
     if args.remove a then
       Forall (fun e => is_index_management e = false) (trace r)
     else
       let r0 := create_search_index a w in
       trace r = trace r0 ++
                 match result r0 with
                 | Ok _ => trace (process_csv a (final r0))
                 | _ => []
                 end) /\
  (forall w0 : W,
     process_csv a w0 =
     match open_file (args.files a) "r" "utf-8-sig" w0 with
     | (w1, Throws e) => Run (csv_head a (Throws e)) w1 (Raise e)
     | (w1, Returns f) =>
       match rows_documents (rows f) with
       | Throws e => Run (csv_header a f) w1 (Raise e)
       | Returns sections =>
         Run (csv_header a f ++ trace (index_sections a sections w1))
             (final (index_sections a sections w1))
             (result (index_sections a sections w1))
       end
     end) /\
  (forall (rows : list dict) (w0 : W),
     comprehension section_of_row rows w0 =
     Run [] w0 (outcome_of (rows_documents rows))).
Proof.
  intros r. subst r. split; [apply main_run|].
  split; [|split; [apply process_csv_run|apply comprehension_section_of_row]].
  rewrite main_run. destruct (args.removeall a).
  - eapply Forall_impl; [apply remove_from_index_events|].
    intros e [He|[o ->]]; [|auto]. destruct e; try discriminate He; auto.
  - destruct (args.remove a).
    + split; (eapply Forall_impl; [apply process_csv_events|]);
        intros e [He|[He|[o ->]]]; try reflexivity;
        destruct e; try discriminate He; reflexivity.
    + assert (Hc : Forall (fun e => is_purge e = false)
                          (trace (create_search_index a w))).
      { eapply Forall_impl; [apply create_search_index_events|].
        intros e [He|[o ->]]; [|reflexivity].
        destruct e; try discriminate He; reflexivity. }
      rewrite bind_unfold. cbn zeta.
      destruct (result (create_search_index a w)); cbn [trace].
      * split; [|reflexivity]. apply Forall_app. split; [exact Hc|].
        eapply Forall_impl; [apply process_csv_events|].
        intros e [He|[He|[o ->]]]; try reflexivity;
          destruct e; try discriminate He; reflexivity.
      * rewrite app_nil_r. split; [exact Hc|reflexivity].
      * rewrite app_nil_r. split; [exact Hc|reflexivity].
Qed.
Lemma rows_documents_each (rows : list dict) (sections : list dict) :
  rows_documents rows = Returns sections ->
  Forall2 (fun row d => row_document row = Returns d) rows sections.
Proof.
  revert sections. induction rows as [|row rows IH]; intros sections E.
  - inversion E. constructor.
  - cbn [rows_documents] in E.
    destruct (row_document row) as [d|e] eqn:Er; [|discriminate E].
    destruct (rows_documents rows) as [ds|e]; [|discriminate E].
    inversion E; subst. constructor; auto.
Qed.

Lemma row_document_fields (row d : dict) :
  row_document row = Returns d ->
  dom d = ({[ "id"; "name"; "description" ]} : gset string) /\
  d !! "id" = row !! "id" /\
  d !! "name" = row !! "name" /\
  d !! "description" = row !! "description".
Proof.
  unfold row_document.
  destruct (row !! "id") as [v1|]; [|discriminate].
  destruct (row !! "name") as [v2|]; [|discriminate].
  destruct (row !! "description") as [v3|]; [|discriminate].
  intros E. inversion E; subst. clear E.
  split; [|split; [|split]].
  - rewrite !dom_insert_L, dom_singleton_L. set_solver.
  - reflexivity.
  - reflexivity.
  - reflexivity.
Qed.

(** C7. The category given on the command line has no part in a run: two
    runs that differ in it alone are equal, call for call and document for
    document.  A document is the row cut down to the three fields [id],
    [name] and [description], and what the CSV part uploads are the
    documents of the first rows of the file, in order. *)
Theorem category_is_not_used (c1 c2 : option string) (fuel : nat) (w : W) :
  main (args.with_category c1 a) fuel w
  = main (args.with_category c2 a) fuel w /\
  (forall (row d : dict) (w0 : W),
     result (section_of_row row w0) = Ok d ->
     dom d = ({[ "id"; "name"; "description" ]} : gset string) /\
     d !! "id" = row !! "id" /\
     d !! "name" = row !! "name" /\
     d !! "description" = row !! "description") /\
  (forall (w0 w1 : W) (f : csv_file),
     open_file (args.files a) "r" "utf-8-sig" w0 = (w1, Returns f) ->
     exists sent rest,
       rows f = sent ++ rest /\
       Forall2 (fun row d => result (section_of_row row w1) = Ok d) sent
         (map document (concat (uploads (trace (process_csv a w0)))))).
Proof.
  split; [reflexivity|]. split.
  - intros row d w0. rewrite section_of_row_run. cbn [result].
    destruct (row_document row) as [d0|e] eqn:E; [|discriminate].
    intros E1. inversion E1; subst. apply row_document_fields. exact E.
  - intros w0 w1 f Eo. rewrite process_csv_run, Eo.
    destruct (rows_documents (rows f)) as [sections|e] eqn:Er.
    + cbn [trace]. unfold csv_header, csv_head.
      rewrite uploads_app. cbn [app uploads omap flushed].
      destruct (index_sections_sends_prefix a sections w1) as (rest' & Hp).
      pose proof (rows_documents_each _ _ Er) as Hall.
      rewrite <- Hp in Hall.
      apply Forall2_app_inv_r in Hall.
      destruct Hall as (sent & rest & Hs & _ & ->).
      exists sent, rest. split; [reflexivity|].
      eapply Forall2_impl; [exact Hs|].
      intros row d Hd. rewrite section_of_row_run, Hd. reflexivity.
    + exists [], (rows f). split; [reflexivity|]. constructor.
Qed.


(** *** One credential for every call *)

Ltac one_credential := intros; first [exact I | reflexivity].

Lemma for_sections_made_with (sections : list dict) :
  forall (st : locals) (w : W),
  Forall (made_with (search_creds a)) (trace (for_sections a sections st w)).
Proof.
  induction sections as [|s rest IH]; intros st w; [constructor|].
  cbn [for_sections]. apply bind_events; [|intros; apply IH].
  unfold loop_body. destruct (_ =? 0); [|constructor].
  apply bind_events; [apply call_events; one_credential|].
  intros res w1. apply bind_events; [|constructor].
  apply when_verbose_events. one_credential.
Qed.

Lemma index_sections_made_with (sections : list dict) (w : W) :
  Forall (made_with (search_creds a)) (trace (index_sections a sections w)).
Proof.
  unfold index_sections.
  apply bind_events; [apply when_verbose_events; one_credential|].
  intros _ w1. apply bind_events; [apply for_sections_made_with|].
  intros st w2. apply bind_events.
  - unfold final_flush. destruct (0 <? _); [|constructor].
    apply bind_events; [apply call_events; one_credential|].
    intros; constructor.
  - intros st1 w3. rewrite final_report_run.
    destruct (args.verbose a); [|constructor].
    destruct (results st1), (succeeded_count st1); repeat constructor.
Qed.

Lemma main_made_with (fuel : nat) (w : W) :
  Forall (made_with (search_creds a)) (trace (main a fuel w)).
Proof.
  assert (Hp : forall w0, Forall (made_with (search_creds a))
                                 (trace (process_csv a w0))).
  { intros w0. unfold process_csv.
    apply bind_events; [repeat constructor|]. intros _ w1.
    apply bind_events; [apply call_events; one_credential|]. intros f w2.
    apply bind_events; [repeat constructor|]. intros _ w3.
    apply bind_events; [|intros; apply index_sections_made_with].
    rewrite comprehension_section_of_row. constructor. }
  rewrite main_run. destruct (args.removeall a).
  - unfold remove_from_index.
    apply bind_events; [apply when_verbose_events; one_credential|].
    intros _ w1. revert w1.
    induction fuel as [|fuel IH]; intros w1; [constructor|].
    rewrite purge_loop_turn. cbn zeta.
    destruct (search (the_search_client a) "" 1000 true w1)
      as [w2 [[n docs]|e]]; [|repeat constructor].
    destruct (n =? 0); [repeat constructor|].
    destruct (id_keys docs) as [keys|]; [|repeat constructor].
    destruct (delete_documents (the_search_client a) keys w2) as [w3 [r|e]];
      [|repeat constructor].
    cbn [trace]. constructor; [reflexivity|]. constructor; [reflexivity|].
    apply Forall_app. split; [apply said_events; one_credential|].
    constructor; [exact I|]. apply IH.
  - destruct (args.remove a); [apply Hp|].
    apply bind_events; [|intros; apply Hp].
    unfold create_search_index.
    apply bind_events; [apply when_verbose_events; one_credential|].
    intros _ w1. cbn zeta.
    apply bind_events; [apply call_events; one_credential|].
    intros names w2. destruct (negb (index_listed a names)).
    + apply bind_events; [apply when_verbose_events; one_credential|].
      intros _ w3. apply call_events. one_credential.
    + apply when_verbose_events. one_credential.
Qed.
End main_facts.

(** C4. Exactly one credential is chosen, by the presence of a search key
    alone: without a key it is the ambient-identity credential, with a key
    it is the key credential built from that key.  With a key no ambient
    credential is made at all, and every network call of a run is made
    with the one credential chosen, so the two never coexist in a run. *)
Theorem search_creds_by_key_presence (a : args.t) :
  (exists c, search_creds a = Some c) /\
  (args.searchkey a = None ->
     search_creds a = Some DefaultAzureCredential /\
     default_creds a = Some DefaultAzureCredential) /\
  (forall key, args.searchkey a = Some key ->
     search_creds a = Some (AzureKeyCredential key) /\
     default_creds a = None) /\
  (forall a', args.searchkey a' = args.searchkey a ->
     search_creds a' = search_creds a) /\
  (forall (W : Type) (world : World W) (fuel : nat) (w : W),
     Forall (made_with (search_creds a)) (trace (main a fuel w))).
Proof.
  split; [|split; [|split; [|split]]].
  - unfold search_creds, default_creds. destruct (args.searchkey a); eauto.
  - intros E. unfold search_creds, default_creds. rewrite E. split; reflexivity.
  - intros key E. unfold search_creds, default_creds. rewrite E.
    split; reflexivity.
  - intros a' E. unfold search_creds, default_creds. rewrite E. reflexivity.
  - intros W world fuel w. apply main_made_with.
Qed.

(** ** The script run on the sample inputs *)



(** Three runs on the reference world: a purge of three documents, a run
    with [--remove] on the file without descriptions, and an indexing run
    of 2000 rows, which needs no trailing call. *)

Example purge_of_three_documents :
  let r := main (with_flags false true false sample_args) 2 stocked_mem in
  result r = Ok tt /\ store (final r) = [] /\
  List.filter is_purge (trace r) =
    [SearchCall (the_search_client sample_args) "" 1000 true
       (Returns (3, map mem_found (store stocked_mem)));
     DeleteDocuments (the_search_client sample_args)
       [{[ "id" := PyStr "0" ]}; {[ "id" := PyStr "7" ]};
        {[ "id" := PyStr "8" ]}]
       (Returns [ {| key := "0"; succeeded := true |};
                  {| key := "7"; succeeded := true |};
                  {| key := "8"; succeeded := true |} ]);
     Sleep 2;
     SearchCall (the_search_client sample_args) "" 1000 true (Returns (0, []))].
Proof. vm_compute. repeat split. Qed.

Example remove_makes_no_network_call :
  let r := main (with_flags true false true sample_args) 0 lacking_mem in
  result r = Raise (KeyError "description") /\
  trace r = csv_header sample_args lacking_file.
Proof. vm_compute. repeat split. Qed.

Example two_thousand_rows :
  let r := index_sections sample_args (sample_rows 2000) empty_mem in
  result r = Ok tt /\
  map (fun b : list IndexAction => length b) (omap loop_flushed (trace r))
    = [1000%nat; 1000%nat] /\
  omap trailing_flushed (trace r) = [].
Proof. vm_compute. repeat split. Qed.

(** * Further properties of the script *)

(** ** More on index_sections *)

Section index_sections_more.
Context {W : Type} `{World W}.
Variable a : args.t.

Lemma count_succeeded_cons (x : IndexingResult) (res : list IndexingResult) :
  count_succeeded (x :: res) =
  (if succeeded x then 1 else 0) + count_succeeded res.
Proof.
  unfold count_succeeded. cbn [List.filter].
  destruct (succeeded x); reflexivity.
Qed.

(** X1. The number of successes that a progress line reports lies between
    zero and the number of results it reports; it reaches that number
    exactly when every record succeeded, and is zero exactly when none
    did. *)
Theorem count_succeeded_bounds (res : list IndexingResult) :
  0 <= count_succeeded res <= Z.of_nat (length res) /\
  (count_succeeded res = Z.of_nat (length res) <->
     forallb succeeded res = true) /\
  (count_succeeded res = 0 <-> existsb succeeded res = false).
Proof.
  induction res as [|x res (IH1 & IH2 & IH3)].
  - repeat split; reflexivity.
  - rewrite count_succeeded_cons. cbn [length forallb existsb].
    rewrite Nat2Z.inj_succ. destruct (succeeded x); cbn [andb orb].
    + split; [lia|]. split.
      * rewrite <- IH2. split; lia.
      * split; [lia|discriminate].
    + split; [lia|]. split.
      * split; [lia|discriminate].
      * rewrite <- IH3. split; lia.
Qed.

(** [index_sections] in three parts: the opening line, the loop, and the
    trailing call with the report. *)
Lemma index_sections_split (sections : list dict) (w : W) :
  let r1 := for_sections a sections (Locals [] 0 None None) w in
  let t0 := said a ("Indexing sections into search index '"
                      +:+ py_str (args.index a) +:+ "'") in
  index_sections a sections w =
  match result r1 with
  | Ok st1 =>
    let r2 := (final_flush a st1 ≫= final_report a) (final r1) in
    Run (t0 ++ trace r1 ++ trace r2) (final r2) (result r2)
  | Raise e => Run (t0 ++ trace r1) (final r1) (Raise e)
  | OutOfFuel => Run (t0 ++ trace r1) (final r1) OutOfFuel
  end.
Proof.
  cbn zeta. unfold index_sections.
  rewrite bind_unfold, when_verbose_said. cbn [trace final result].
  rewrite bind_unfold.
  destruct (result (for_sections a sections (Locals [] 0 None None) w));
    reflexivity.
Qed.

(** X2. When every call returns, [index_sections] returns normally in
    all cases but one: verbose output with no record.  In particular it
    never fails on [succeeded], and a run without verbose output never
    fails at all. *)
Theorem index_sections_returns_unless_empty_verbose
    (sections : list dict) (w : W) :
  let r := index_sections a sections w in
  forallb returned (trace r) = true ->
  (result r = Raise (UnboundLocalError "results") <->
     args.verbose a = true /\ sections = []) /\
  (result r = Ok tt <-> args.verbose a = false \/ sections <> []).
Proof.
  intros r Hret.
  destruct (index_sections_run a sections w)
    as (U & tl & _ & _ & _ & _ & _ & _ & Hok).
  fold r in Hok. destruct (Hok Hret) as (_ & _ & _ & Hres). clear Hok.
  rewrite Hres.
  destruct (args.verbose a); cbn [andb].
  - destruct sections as [|s rest]; cbn [length].
    + cbn. split; split; try tauto; try discriminate.
      intros [E|E]; [discriminate E|contradiction].
    + replace (Z.of_nat (S (length rest)) =? 0) with false
        by (symmetry; apply Z.eqb_neq; lia).
      split; split; try discriminate; auto.
      intros [_ E]. discriminate E.
  - split; split; try discriminate; auto.
    intros [E _]. discriminate E.
Qed.

(** X3. Whatever the service answers, every upload call of
    [index_sections] carries at least one and at most 1000 actions, at
    most one of them is the trailing call, and the records sent are an
    initial part of the input: nothing is sent twice or out of order, and
    no empty batch is ever sent. *)
Theorem index_sections_batch_bounds (sections : list dict) (w : W) :
  let r := index_sections a sections w in
  Forall (fun b => 1 <= Z.of_nat (length b) <= 1000) (uploads (trace r)) /\
  (length (omap trailing_flushed (trace r)) <= 1)%nat /\
  exists rest,
    map document (concat (uploads (trace r))) ++ rest = sections.
Proof.
  intros r. subst r.
  split; [|split; [|apply index_sections_sends_prefix]].
  - rewrite index_sections_split. cbn zeta.
    assert (I0 : pending_ok (Locals [] 0 None None)) by reflexivity.
    pose proof (for_sections_run a sections _ w I0) as (F1 & _ & _ & F4).
    set (r1 := for_sections a sections (Locals [] 0 None None) w) in *.
    assert (F1' : Forall (fun b => 1 <= Z.of_nat (length b) <= 1000)
                         (uploads (trace r1))).
    { eapply Forall_impl; [exact F1|]. cbn beta. intros b Hb. lia. }
    assert (S0 : forall line, uploads (said a line) = []).
    { intros line. unfold said. destruct (args.verbose a); reflexivity. }
    destruct (result r1) as [st1|e|]; cbn [trace];
      rewrite ?uploads_app, S0; cbn [app]; [|exact F1'|exact F1'].
    apply Forall_app. split; [exact F1'|].
    destruct F4 as (G1 & _).
    pose proof (finish_run a st1 (final r1)) as (Q1 & _ & Q3 & Q4).
    rewrite (uploads_no_trailing_inv _ Q1).
    destruct (batch st1) as [|x b] eqn:EB.
    + destruct (Q3 eq_refl) as (-> & _). constructor.
    + destruct Q4 as (-> & _); [discriminate|].
      constructor; [|constructor].
      unfold pending_ok in G1. rewrite EB in G1. cbn [length] in *.
      rewrite G1. split; [|Z.to_euclidean_division_equations; lia].
      rewrite <- G1. lia.
  - rewrite index_sections_split. cbn zeta.
    assert (I0 : pending_ok (Locals [] 0 None None)) by reflexivity.
    pose proof (for_sections_run a sections _ w I0) as (_ & F2 & _ & _).
    set (r1 := for_sections a sections (Locals [] 0 None None) w) in *.
    assert (S0 : forall line, omap trailing_flushed (said a line) = []).
    { intros line. unfold said. destruct (args.verbose a); reflexivity. }
    destruct (result r1) as [st1|e|]; cbn [trace];
      rewrite ?omap_app, S0, F2; cbn [app length]; try lia.
    pose proof (finish_run a st1 (final r1)) as (_ & _ & Q3 & Q4).
    destruct (batch st1) as [|x b] eqn:EB.
    + destruct (Q3 eq_refl) as (-> & _). cbn. lia.
    + destruct Q4 as (-> & _); [discriminate|]. cbn. lia.
Qed.
(** One turn of the loop, call by call. *)
Lemma loop_body_eq (s : dict) (st : locals) (w : W) :
  loop_body a s st w =
  let c := the_search_client a in
  let batch1 := batch st ++ [upload s] in
  if (i st + 1) mod 1000 =? 0 then
    match index_documents c batch1 w with
    | (w1, Returns res) =>
      Run (IndexDocuments c batch1 (Returns res)
             :: said a (indexed_line res (count_succeeded res)))
          w1
          (Ok (Locals [] (i st + 1) (Some res) (Some (count_succeeded res))))
    | (w1, Throws e) => Run [IndexDocuments c batch1 (Throws e)] w1 (Raise e)
    end
  else
    Run [] w (Ok (Locals batch1 (i st + 1) (results st) (succeeded_count st))).
Proof.
  unfold loop_body. cbn zeta. destruct (_ =? 0); [|reflexivity].
  rewrite bind_unfold, call_run. cbn [trace final result].
  destruct (index_documents (the_search_client a) (batch st ++ [upload s]) w)
    as [w1 [res|e]]; cbn [fst snd outcome_of]; [|reflexivity].
  rewrite bind_unfold, when_verbose_said. cbn [trace final result].
  rewrite app_nil_r. reflexivity.
Qed.

(** A loop that ends with nothing pending ended on a call, whose reply
    is what [results] and [succeeded] now hold. *)
Lemma for_sections_ends_with_flush (sections : list dict) :
  forall (st st1 : locals) (w : W),
  sections <> [] ->
  result (for_sections a sections st w) = Ok st1 ->
  batch st1 = [] ->
  exists t c b res,
    trace (for_sections a sections st w) =
      t ++ IndexDocuments c b (Returns res)
             :: said a (indexed_line res (count_succeeded res)) /\
    results st1 = Some res /\
    succeeded_count st1 = Some (count_succeeded res).
Proof.
  induction sections as [|s rest IH]; intros st st1 w Hne Hres Hb;
    [contradiction|].
  cbn [for_sections] in *. rewrite bind_unfold in *.
  rewrite loop_body_eq in *. cbn zeta in *.
  destruct ((i st + 1) mod 1000 =? 0).
  - destruct (index_documents (the_search_client a)
                (batch st ++ [upload s]) w) as [w1 [res|e]];
      cbn [trace final result] in *; [|discriminate Hres].
    destruct rest as [|s' rest'].
    + cbn [for_sections ret trace final result] in *.
      inversion Hres; subst. cbn [results succeeded_count].
      exists [], (the_search_client a), (batch st ++ [upload s]), res.
      rewrite app_nil_r. auto.
    + destruct (IH _ st1 w1 ltac:(discriminate) Hres Hb)
        as (t & c & b & res' & Et & E1 & E2).
      exists (IndexDocuments (the_search_client a) (batch st ++ [upload s])
                (Returns res)
              :: said a (indexed_line res (count_succeeded res)) ++ t),
        c, b, res'.
      rewrite Et. cbn [app]. rewrite <- app_assoc. auto.
  - cbn [trace final result] in *.
    destruct rest as [|s' rest'].
    + cbn [for_sections ret trace final result] in *.
      inversion Hres; subst. cbn [batch] in Hb.
      destruct (batch st); discriminate Hb.
    + destruct (IH _ st1 w ltac:(discriminate) Hres Hb)
        as (t & c & b & res' & Et & E1 & E2).
      exists t, c, b, res'. rewrite Et. auto.
Qed.

(** X4. With verbose output, when the number of records is a multiple of
    1000 and not zero, the last batch is reported twice: the report
    after the loop finds no trailing batch and prints the results of the
    last loop call again. *)
Theorem index_sections_reports_last_batch_twice
    (sections : list dict) (w : W) :
  let r := index_sections a sections w in
  args.verbose a = true ->
  sections <> [] ->
  Z.of_nat (length sections) mod 1000 = 0 ->
  forallb returned (trace r) = true ->
  result r = Ok tt /\
  exists t c b res,
    trace r =
      t ++ [IndexDocuments c b (Returns res);
            Print [Text (indexed_line res (count_succeeded res))];
            Print [Text (indexed_line res (count_succeeded res))]].
Proof.
  intros r Hv Hne Hmod Hret. subst r.
  rewrite index_sections_split in *. cbn zeta in *.
  assert (I0 : pending_ok (Locals [] 0 None None)) by reflexivity.
  pose proof (for_sections_run a sections _ w I0) as (_ & _ & _ & F4).
  pose proof (for_sections_ends_with_flush sections (Locals [] 0 None None))
    as Hend.
  set (r1 := for_sections a sections (Locals [] 0 None None) w) in *.
  destruct (result r1) as [st1|e|] eqn:ER; [| |contradiction].
  - destruct F4 as (G1 & G2 & _).
    assert (Hb : batch st1 = []).
    { unfold pending_ok in G1. cbn [i] in G2. rewrite G2, Z.add_0_l, Hmod in G1.
      destruct (batch st1); [reflexivity|discriminate G1]. }
    destruct (Hend st1 w Hne ER Hb) as (t & c & b & res & Et & E1 & E2).
    fold r1 in Et.
    destruct (final_flush_run a st1 (final r1)) as [(_ & Ef)|(Hnb & _)];
      [|contradiction].
    cbn [trace result]. rewrite bind_unfold, Ef. cbn [trace final result].
    rewrite final_report_run, Hv, E1, E2. cbn [trace result app].
    split; [reflexivity|].
    exists (said a ("Indexing sections into search index '"
                      +:+ py_str (args.index a) +:+ "'") ++ t), c, b, res.
    rewrite Et. unfold said at 2. rewrite Hv.
    rewrite <- !app_assoc. reflexivity.
  - exfalso. destruct F4 as (G1 & _). cbn [trace] in Hret.
    rewrite forallb_app, G1, andb_false_r in Hret. discriminate Hret.
Qed.
End index_sections_more.

Lemma index_sections_returns_unless_empty_verbose_witness :
  result (index_sections sample_args (sample_rows 1) empty_mem) = Ok tt.
Proof.
  apply (index_sections_returns_unless_empty_verbose sample_args
           (sample_rows 1) empty_mem); [reflexivity|].
  right. discriminate.
Defined.

Lemma index_sections_reports_last_batch_twice_witness :
  exists t c b res,
    trace (index_sections sample_args (sample_rows 1000) empty_mem) =
      t ++ [IndexDocuments c b (Returns res);
            Print [Text (indexed_line res (count_succeeded res))];
            Print [Text (indexed_line res (count_succeeded res))]].
Proof.
  apply (index_sections_reports_last_batch_twice sample_args
           (sample_rows 1000) empty_mem).
  - reflexivity.
  - discriminate.
  - vm_compute. reflexivity.
  - vm_compute. reflexivity.
Defined.

(** ** Failures are never swallowed *)

Section failures.
Context {W : Type} `{World W}.
Variable a : args.t.

Lemma quiet_stops {A} (r : run W A) :
  forallb returned (trace r) = true -> stops_at_failure r.
Proof. intros E. left. exact E. Qed.

Lemma bind_stops {A B} (m : M W A) (f : A -> M W B) (w : W) :
  stops_at_failure (m w) ->
  (forall x w1, stops_at_failure (f x w1)) ->
  stops_at_failure ((m ≫= f) w).
Proof.
  intros [Hall|(t & ev & e & Et & Ht & Hth & Hr)] Hf; rewrite bind_unfold.
  - destruct (result (m w)) as [x| |]; [|left; exact Hall|left; exact Hall].
    destruct (Hf x (final (m w))) as [Hall2|(t & ev & e & Et & Ht & Hth & Hr)].
    + left. cbn [trace]. rewrite forallb_app, Hall, Hall2. reflexivity.
    + right. exists (trace (m w) ++ t), ev, e. cbn [trace result].
      rewrite Et, app_assoc, forallb_app, Hall, Ht. auto.
  - rewrite Hr. right. exists t, ev, e. auto.
Qed.

Lemma call_stops {A} (op : W -> W * reply A) (ev : reply A -> event) (w : W) :
  (forall x, returned (ev (Returns x)) = true) ->
  (forall e, thrown (ev (Throws e)) = Some e) ->
  stops_at_failure (call op ev w).
Proof.
  intros Hr Ht. rewrite call_run. destruct (snd (op w)) as [x|e].
  - left. cbn [trace forallb]. rewrite Hr. reflexivity.
  - right. exists [], (ev (Throws e)), e. cbn. auto.
Qed.

Lemma when_verbose_stops line (w : W) :
  stops_at_failure (when_verbose a line w).
Proof.
  apply quiet_stops. rewrite when_verbose_said. apply returned_said.
Qed.

Ltac stops_call := apply call_stops; [intros; reflexivity|intros; reflexivity].

Lemma index_sections_stops (sections : list dict) (w : W) :
  stops_at_failure (index_sections a sections w).
Proof.
  unfold index_sections. apply bind_stops; [apply when_verbose_stops|].
  intros _ w1. apply bind_stops.
  - generalize (Locals [] 0 None None). revert w1.
    induction sections as [|s rest IH]; intros w1 st;
      [apply quiet_stops; reflexivity|].
    cbn [for_sections]. apply bind_stops; [|intros; apply IH].
    unfold loop_body. destruct (_ =? 0); [|apply quiet_stops; reflexivity].
    apply bind_stops; [stops_call|]. intros res w2.
    apply bind_stops; [apply when_verbose_stops|].
    intros; apply quiet_stops; reflexivity.
  - intros st w2. apply bind_stops.
    + unfold final_flush. destruct (0 <? _); [|apply quiet_stops; reflexivity].
      apply bind_stops; [stops_call|]. intros; apply quiet_stops; reflexivity.
    + intros st1 w3. apply quiet_stops. rewrite final_report_run.
      destruct (args.verbose a); [|reflexivity].
      destruct (results st1), (succeeded_count st1); reflexivity.
Qed.

Lemma purge_loop_stops (fuel : nat) :
  forall w : W, stops_at_failure (purge_loop a fuel w).
Proof.
  induction fuel as [|fuel IH]; intros w; [apply quiet_stops; reflexivity|].
  cbn [purge_loop]. apply bind_stops; [stops_call|]. intros r w1.
  destruct (fst r =? 0); [apply quiet_stops; reflexivity|].
  apply bind_stops.
  { apply quiet_stops. rewrite comprehension_id_only. reflexivity. }
  intros keys w2. apply bind_stops; [stops_call|]. intros r' w3.
  apply bind_stops; [apply when_verbose_stops|]. intros _ w4.
  apply bind_stops; [apply quiet_stops; reflexivity|]. intros _ w5. apply IH.
Qed.

Lemma main_stops (fuel : nat) (w : W) : stops_at_failure (main a fuel w).
Proof.
  assert (Hp : forall w0, stops_at_failure (process_csv a w0)).
  { intros w0. unfold process_csv.
    apply bind_stops; [apply quiet_stops; reflexivity|]. intros _ w1.
    apply bind_stops; [stops_call|]. intros f w2.
    apply bind_stops; [apply quiet_stops; reflexivity|]. intros _ w3.
    apply bind_stops; [|intros; apply index_sections_stops].
    apply quiet_stops. rewrite comprehension_section_of_row. reflexivity. }
  rewrite main_run. destruct (args.removeall a).
  - unfold remove_from_index.
    apply bind_stops; [apply when_verbose_stops|].
    intros _ w1. apply purge_loop_stops.
  - destruct (args.remove a); [apply Hp|].
    apply bind_stops; [|intros; apply Hp].
    unfold create_search_index.
    apply bind_stops; [apply when_verbose_stops|]. intros _ w1. cbn zeta.
    apply bind_stops; [stops_call|]. intros names w2.
    destruct (negb (index_listed a names)); [|apply when_verbose_stops].
    apply bind_stops; [apply when_verbose_stops|]. intros _ w3. stops_call.
Qed.

Lemma unreturned_is_last (t1 t2 t : list event) (ev ev' : event) :
  t1 ++ ev :: t2 = t ++ [ev'] ->
  forallb returned t = true ->
  returned ev = false ->
  t2 = [] /\ ev = ev'.
Proof.
  revert t. induction t1 as [|y t1 IH]; intros t E Ht Hev.
  - destruct t as [|x t]; cbn in E.
    + inversion E; auto.
    + inversion E; subst. cbn in Ht. rewrite Hev in Ht. discriminate Ht.
  - destruct t as [|x t]; cbn in E.
    + inversion E as [[E1 E2]]. destruct t1; discriminate E2.
    + inversion E as [[E1 E2]]. cbn in Ht.
      apply andb_prop in Ht as [_ Ht]. apply (IH t E2 Ht Hev).
Qed.

(** X5. The script has no handler: a call that throws is the last thing
    a run does, and the run ends in the exception it threw.  Nothing is
    retried, and no call is made after a failure. *)
Theorem main_stops_at_first_failure
    (fuel : nat) (w : W) (t1 t2 : list event) (ev : event) :
  trace (main a fuel w) = t1 ++ ev :: t2 ->
  returned ev = false ->
  t2 = [] /\
  exists e, thrown ev = Some e /\ result (main a fuel w) = Raise e.
Proof.
  intros Et Hev.
  destruct (main_stops fuel w) as [Hall|(t & ev' & e & Et' & Ht & Hth & Hr)].
  - exfalso. rewrite Et, forallb_app in Hall. cbn [forallb] in Hall.
    rewrite Hev, andb_false_r in Hall. discriminate Hall.
  - rewrite Et in Et'.
    destruct (unreturned_is_last _ _ _ _ _ Et' Ht Hev) as (-> & ->).
    split; [reflexivity|]. exists e. auto.
Qed.
End failures.

Lemma main_stops_at_first_failure_witness :
  exists e,
    thrown (Open "data.csv" "r" "utf-8-sig" (Throws (OSError "data.csv")))
      = Some e /\
    result (main sample_args 0 empty_mem) = Raise e.
Proof.
  destruct (main_stops_at_first_failure sample_args 0 empty_mem
              (removelast (trace (main sample_args 0 empty_mem))) []
              (Open "data.csv" "r" "utf-8-sig" (Throws (OSError "data.csv"))))
    as (_ & e & He).
  - vm_compute. reflexivity.
  - reflexivity.
  - exists e. exact He.
Defined.

(** ** More on remove_from_index *)

Section remove_from_index_more.
Context {W : Type} `{World W}.
Variable a : args.t.

Lemma purge_loop_returns (fuel : nat) :
  forall w : W,
  result (purge_loop a fuel w) = Ok tt ->
  purge_trace a (trace (purge_loop a fuel w)).
Proof.
  induction fuel as [|fuel IH]; intros w; [discriminate|].
  rewrite purge_loop_turn. cbn zeta.
  destruct (search (the_search_client a) "" 1000 true w)
    as [w1 [[n docs]|e]]; [|discriminate].
  destruct (Z.eqb_spec n 0) as [->|Hn]; [intros _; constructor|].
  destruct (id_keys docs) as [keys|] eqn:Ek; [|discriminate].
  destruct (delete_documents (the_search_client a) keys w1) as [w2 [r|e]];
    [|discriminate].
  cbn [trace result]. intros Hok. constructor; auto.
Qed.

(** X6. Whatever the service does, [remove_from_index] returns only
    after a search that counted zero documents: if it returns at all, its
    trace is a sequence of turns, each a search that counted documents, the
    deletion of those found by their ids and a sleep of two seconds,
    closed by a search that counted none. *)
Theorem remove_from_index_returns_only_on_zero (fuel : nat) (w : W) :
  result (remove_from_index a fuel w) = Ok tt ->
  (exists t,
     trace (remove_from_index a fuel w) =
       said a ("Removing all documents from search index '"
                 +:+ py_str (args.index a) +:+ "'") ++ t /\
     purge_trace a t) /\
  exists docs,
    last (trace (remove_from_index a fuel w)) =
      Some (SearchCall (the_search_client a) "" 1000 true (Returns (0, docs))).
Proof.
  unfold remove_from_index. rewrite bind_unfold, when_verbose_said.
  cbn [trace final result]. intros Hok.
  pose proof (purge_loop_returns fuel w Hok) as Hp.
  split; [eauto|].
  destruct (purge_trace_last a _ Hp) as (docs & Hl). exists docs.
  rewrite last_app, Hl. reflexivity.
Qed.

Lemma filter_sleep_said line :
  List.filter is_sleep (said a line) = [].
Proof. unfold said. destruct (args.verbose a); reflexivity. Qed.

(** X7. The loop has no bound of its own: over an index that never
    drains it never returns.  However many turns it is given, it uses
    them all, sleeping once in each, and is still running. *)
Theorem remove_from_index_never_gives_up (fuel : nat) (w : W) :
  never_drains a ->
  result (remove_from_index a fuel w) = OutOfFuel /\
  length (List.filter is_sleep (trace (remove_from_index a fuel w))) = fuel.
Proof.
  intros Hnd. unfold remove_from_index.
  rewrite bind_unfold, when_verbose_said. cbn [trace final result].
  assert (Hloop : forall w0,
            result (purge_loop a fuel w0) = OutOfFuel /\
            length (List.filter is_sleep (trace (purge_loop a fuel w0)))
            = fuel).
  { induction fuel as [|n IH]; intros w0; [split; reflexivity|].
    rewrite purge_loop_turn. cbn zeta.
    destruct (Hnd w0) as (w1 & c & docs & keys & w2 & r & Es & Hc & Ek & Ed).
    rewrite Es. replace (c =? 0) with false by (symmetry; apply Z.eqb_neq; auto).
    rewrite Ek, Ed. cbn [trace result].
    destruct (IH (sleep 2 w2)) as (R1 & R2). split; [exact R1|].
    cbn [List.filter is_sleep].
    rewrite List.filter_app, filter_sleep_said. cbn [app List.filter is_sleep length].
    rewrite R2. reflexivity. }
  destruct (Hloop w) as (R1 & R2).
  destruct (result (purge_loop a fuel w)); try discriminate R1.
  cbn [trace result]. split; [reflexivity|].
  rewrite List.filter_app, filter_sleep_said. exact R2.
Qed.

Lemma id_keys_lacking (docs : list dict) :
  Exists (fun d : dict => d !! "id" = None) docs -> id_keys docs = None.
Proof.
  induction 1 as [d docs Hd|d docs _ IH]; cbn [id_keys].
  - rewrite Hd. reflexivity.
  - rewrite IH. destruct (d !! "id"); reflexivity.
Qed.

(** X8. When a search counts documents and one of those it returns has
    no [id], the turn fails with a key error on [id] before anything is
    deleted: the run ends right after the search, without a deletion and
    without a sleep. *)
Theorem remove_from_index_document_without_id
    (fuel : nat) (w w1 : W) (n : Z) (docs : list dict) :
  search (the_search_client a) "" 1000 true w = (w1, Returns (n, docs)) ->
  n <> 0 ->
  Exists (fun d : dict => d !! "id" = None) docs ->
  remove_from_index a (S fuel) w =
  Run (said a ("Removing all documents from search index '"
                 +:+ py_str (args.index a) +:+ "'")
         ++ [SearchCall (the_search_client a) "" 1000 true
               (Returns (n, docs))])
      w1 (Raise (KeyError "id")).
Proof.
  intros Es Hn Hex. unfold remove_from_index.
  rewrite bind_unfold, when_verbose_said. cbn [trace final result].
  rewrite purge_loop_turn. cbn zeta. rewrite Es.
  replace (n =? 0) with false by (symmetry; apply Z.eqb_neq; auto).
  rewrite (id_keys_lacking docs Hex). reflexivity.
Qed.
End remove_from_index_more.

Lemma stale_never_drains (a : args.t) : never_drains (W := stale) a.
Proof.
  intros w.
  exists w, 1, [ ({[ "id" := PyStr "x" ]} : dict) ],
    [ ({[ "id" := PyStr "x" ]} : dict) ], w,
    (canned_results [ ({[ "id" := PyStr "x" ]} : dict) ]).
  repeat split. discriminate.
Qed.

Lemma remove_from_index_returns_only_on_zero_witness :
  exists docs,
    last (trace (remove_from_index sample_args 2 stocked_mem)) =
      Some (SearchCall (the_search_client sample_args) "" 1000 true
              (Returns (0, docs))).
Proof.
  apply (remove_from_index_returns_only_on_zero sample_args 2 stocked_mem).
  reflexivity.
Defined.

Lemma remove_from_index_never_gives_up_witness :
  result (remove_from_index sample_args 50 Stale) = OutOfFuel /\
  length (List.filter is_sleep (trace (remove_from_index sample_args 50 Stale)))
  = 50%nat.
Proof.
  apply (remove_from_index_never_gives_up sample_args 50 Stale).
  apply stale_never_drains.
Defined.

Lemma remove_from_index_document_without_id_witness :
  remove_from_index sample_args 1 keyless_index =
  Run (said sample_args ("Removing all documents from search index '"
                           +:+ py_str (args.index sample_args) +:+ "'")
         ++ [SearchCall (the_search_client sample_args) "" 1000 true
               (Returns (1, canned_docs keyless_index))])
      keyless_index (Raise (KeyError "id")).
Proof.
  apply (remove_from_index_document_without_id sample_args 0 keyless_index
           keyless_index 1 (canned_docs keyless_index)).
  - reflexivity.
  - discriminate.
  - constructor. reflexivity.
Defined.

(** ** More on create_search_index *)

Section create_search_index_more.
Context {W : Type} `{World W}.
Variable a : args.t.

Lemma create_nameless_run (w : W) :
  args.index a = None ->
  forallb returned (trace (create_search_index a w)) = true ->
  creations (trace (create_search_index a w)) = 1%nat /\
  result (create_search_index a w) = Ok tt.
Proof.
  intros Hnone Hret.
  pose proof (create_search_index_creations a w) as Hc.
  pose proof (create_search_index_run a w) as Er. cbn zeta in Er.
  assert (Hl : forall names, index_listed a names = false).
  { intros names. unfold index_listed. rewrite Hnone. reflexivity. }
  destruct (list_index_names (the_index_client a) w) as [w1 [names|e]];
    cbn [snd] in Hc.
  - rewrite Hl in Hc, Er.
    destruct (create_index (the_index_client a) (the_index a) w1)
      as [w2 [[]|e]].
    + split; [exact Hc|]. rewrite Er. reflexivity.
    + exfalso. rewrite Er in Hret. cbn [trace] in Hret.
      rewrite forallb_app in Hret. cbn [forallb returned replied] in Hret.
      apply andb_prop in Hret as [_ Hret].
      rewrite forallb_app in Hret. cbn [forallb returned replied] in Hret.
      rewrite andb_false_r in Hret. discriminate Hret.
  - exfalso. rewrite Er in Hret. cbn [trace] in Hret.
    rewrite forallb_app in Hret. cbn [forallb returned replied] in Hret.
    rewrite andb_false_r in Hret. discriminate Hret.
Qed.

(** X9. The index name is optional on the command line, and without it
    the test [args.index not in names] always holds: every call of
    [create_search_index] whose calls return issues a creation, of an
    index without a name, so two calls in a row issue two. *)
Theorem create_search_index_without_index_name (w : W) :
  let r2 := (create_search_index a ≫= fun _ => create_search_index a) w in
  args.index a = None ->
  forallb returned (trace r2) = true ->
  name (the_index a) = None /\
  creations (trace (create_search_index a w)) = 1%nat /\
  creations (trace r2) = 2%nat.
Proof.
  intros r2 Hnone Hret. subst r2. rewrite bind_unfold in *.
  split; [exact Hnone|].
  destruct (result (create_search_index a w)) as [[]|e|] eqn:Er;
    cbn [trace] in *.
  - rewrite forallb_app in Hret. apply andb_prop in Hret as [H1 H2].
    destruct (create_nameless_run w Hnone H1) as (C1 & _).
    destruct (create_nameless_run _ Hnone H2) as (C2 & _).
    split; [exact C1|]. rewrite creations_app, C1, C2. reflexivity.
  - destruct (create_nameless_run w Hnone Hret) as (_ & C). congruence.
  - destruct (create_nameless_run w Hnone Hret) as (_ & C). congruence.
Qed.
End create_search_index_more.

Lemma create_search_index_without_index_name_witness :
  creations
    (trace ((create_search_index nameless_args
               ≫= fun _ => create_search_index nameless_args) keyless_index))
  = 2%nat.
Proof.
  apply (create_search_index_without_index_name nameless_args keyless_index).
  - reflexivity.
  - reflexivity.
Defined.

(** ** More on the CSV part and the dispatch *)

Section main_more.
Context {W : Type} `{World W}.
Variable a : args.t.

Lemma id_keys_dom (docs keys : list dict) :
  id_keys docs = Some keys ->
  Forall (fun d : dict => dom d = ({[ "id" ]} : gset string)) keys.
Proof.
  revert keys. induction docs as [|d docs IH]; intros keys E; cbn in E.
  - inversion E. constructor.
  - destruct (d !! "id") as [v|]; [|discriminate E].
    destruct (id_keys docs) as [ks|]; [|discriminate E].
    inversion E; subst. constructor; [apply dom_singleton_L|auto].
Qed.

Ltac as_expected := intros; cbn; auto.

Lemma index_sections_expected (sections : list dict) (w : W) :
  Forall (expected a) (trace (index_sections a sections w)).
Proof.
  unfold index_sections.
  apply bind_events; [apply when_verbose_events; as_expected|].
  intros _ w1. apply bind_events.
  - generalize (Locals [] 0 None None). revert w1.
    induction sections as [|s rest IH]; intros w1 st; [constructor|].
    cbn [for_sections]. apply bind_events; [|intros; apply IH].
    unfold loop_body. destruct (_ =? 0); [|constructor].
    apply bind_events; [apply call_events; as_expected|].
    intros res w2. apply bind_events; [|constructor].
    apply when_verbose_events. as_expected.
  - intros st w2. apply bind_events.
    + unfold final_flush. destruct (0 <? _); [|constructor].
      apply bind_events; [apply call_events; as_expected|].
      intros; constructor.
    + intros st1 w3. rewrite final_report_run.
      destruct (args.verbose a); [|constructor].
      destruct (results st1), (succeeded_count st1); repeat constructor.
Qed.

(** X10. Every event of a run is one of a fixed few: a print; the
    opening of [args.files] for reading as [utf-8-sig]; a listing or a
    creation through the one index client, the creation always of the
    fixed schema; an upload or a deletion through the one search client,
    a deletion always of documents cut down to their [id]; a search for
    the empty text with [top=1000] and the total count; a sleep of two
    seconds.  The script never touches another file, service or index. *)
Theorem main_events_expected (fuel : nat) (w : W) :
  Forall (expected a) (trace (main a fuel w)).
Proof.
  assert (Hp : forall w0, Forall (expected a) (trace (process_csv a w0))).
  { intros w0. unfold process_csv.
    apply bind_events; [repeat constructor|]. intros _ w1.
    apply bind_events; [apply call_events; as_expected|]. intros f w2.
    apply bind_events; [repeat constructor|]. intros _ w3.
    apply bind_events; [|intros; apply index_sections_expected].
    rewrite comprehension_section_of_row. constructor. }
  rewrite main_run. destruct (args.removeall a).
  - unfold remove_from_index.
    apply bind_events; [apply when_verbose_events; as_expected|].
    intros _ w1. revert w1.
    induction fuel as [|fuel IH]; intros w1; [constructor|].
    rewrite purge_loop_turn. cbn zeta.
    destruct (search (the_search_client a) "" 1000 true w1)
      as [w2 [[n docs]|e]]; [|repeat constructor].
    destruct (n =? 0); [repeat constructor|].
    destruct (id_keys docs) as [keys|] eqn:Ek; [|repeat constructor].
    pose proof (id_keys_dom _ _ Ek) as Hdom.
    destruct (delete_documents (the_search_client a) keys w2) as [w3 [r|e]].
    + cbn [trace]. constructor; [cbn; auto|]. constructor; [cbn; auto|].
      apply Forall_app. split; [apply said_events; as_expected|].
      constructor; [reflexivity|]. apply IH.
    + constructor; [cbn; auto|]. constructor; [cbn; auto|]. constructor.
  - destruct (args.remove a); [apply Hp|].
    apply bind_events; [|intros; apply Hp].
    unfold create_search_index.
    apply bind_events; [apply when_verbose_events; as_expected|].
    intros _ w1. cbn zeta.
    apply bind_events; [apply call_events; as_expected|].
    intros names w2. destruct (negb (index_listed a names)).
    + apply bind_events; [apply when_verbose_events; as_expected|].
      intros _ w3. apply call_events. as_expected.
    + apply when_verbose_events. as_expected.
Qed.

(** Whatever the reply, the file that a CSV part opens is the one of
    the command line, and the reply is the world's. *)
Lemma process_csv_opened_any (w : W) p m enc (rep : reply csv_file) :
  Open p m enc rep ∈ trace (process_csv a w) ->
  exists w1, open_file (args.files a) "r" "utf-8-sig" w = (w1, rep).
Proof.
  rewrite process_csv_run.
  destruct (open_file (args.files a) "r" "utf-8-sig" w) as [w1 [f0|e]].
  - assert (Hh : Open p m enc rep ∈ csv_header a f0 -> Returns f0 = rep).
    { unfold csv_header, csv_head. cbn [app]. intros Hin.
      apply elem_of_cons in Hin as [Hin|Hin]; [discriminate Hin|].
      apply elem_of_cons in Hin as [Hin|Hin]; [congruence|].
      apply elem_of_cons in Hin as [Hin|Hin]; [discriminate Hin|].
      inversion Hin. }
    destruct (rows_documents (rows f0)) as [sections|e]; cbn [trace].
    + intros Hin. apply elem_of_app in Hin as [Hin|Hin].
      * exists w1. rewrite (Hh Hin). reflexivity.
      * exfalso.
        destruct (index_sections_run a sections w1)
          as (U & tl & _ & _ & _ & _ & Hev & _).
        rewrite Forall_forall in Hev.
        destruct (Hev _ Hin) as [He|[o He]]; discriminate He.
    + intros Hin. exists w1. rewrite (Hh Hin). reflexivity.
  - unfold csv_head. cbn [trace]. intros Hin.
    apply elem_of_cons in Hin as [Hin|Hin]; [discriminate Hin|].
    apply elem_of_cons in Hin as [Hin|Hin].
    + exists w1. inversion Hin; subst. reflexivity.
    + inversion Hin.
Qed.

(** A run that opened the file is a run without [--removeall]: what
    went before the CSV part is at most the index step. *)
Lemma main_opened (fuel : nat) (w : W) p m enc (rep : reply csv_file) :
  Open p m enc rep ∈ trace (main a fuel w) ->
  exists t0 w0 w1,
    open_file (args.files a) "r" "utf-8-sig" w0 = (w1, rep) /\
    trace (main a fuel w) = t0 ++ trace (process_csv a w0) /\
    result (main a fuel w) = result (process_csv a w0) /\
    uploads t0 = [] /\
    forallb (fun e => negb (is_upload e)) t0 = true /\
    forallb (fun e => negb (is_network e)) t0 = args.remove a /\
    args.removeall a = false.
Proof.
  rewrite main_run. destruct (args.removeall a).
  { intros Hin. exfalso.
    pose proof (remove_from_index_events a fuel w) as Hev.
    rewrite Forall_forall in Hev.
    destruct (Hev _ Hin) as [He|[o He]]; discriminate He. }
  destruct (args.remove a).
  - intros Hin. destruct (process_csv_opened_any _ _ _ _ _ Hin) as (w1 & Eo).
    exists [], w, w1. repeat split; auto.
  - rewrite bind_unfold.
    pose proof (create_search_index_events a w) as Hev.
    pose proof (create_search_index_run a w) as Erun. cbn zeta in Erun.
    set (r0 := create_search_index a w) in *.
    assert (Hno : ~ Open p m enc rep ∈ trace r0).
    { intros Hin0. rewrite Forall_forall in Hev.
      destruct (Hev _ Hin0) as [He|[o He]]; discriminate He. }
    assert (Hup0 : forallb (fun e => negb (is_upload e)) (trace r0) = true).
    { apply forallb_forall. intros e He. apply list_elem_of_In in He.
      rewrite Forall_forall in Hev.
      destruct (Hev _ He) as [He1|[o ->]]; [|reflexivity].
      destruct e; try discriminate He1; reflexivity. }
    assert (Hup1 : uploads (trace r0) = []).
    { clear -Hev. induction Hev as [|e t [He|[o ->]] _ IH]; [reflexivity| |].
      - destruct e; try discriminate He; exact IH.
      - exact IH. }
    assert (Hnet0 : forallb (fun e => negb (is_network e)) (trace r0) = false).
    { rewrite Erun.
      destruct (list_index_names (the_index_client a) w) as [w1 [names|e]].
      - destruct (index_listed a names).
        + cbn [trace]. rewrite forallb_app. cbn [forallb is_network negb].
          apply andb_false_r.
        + destruct (create_index (the_index_client a) (the_index a) w1).
          cbn [trace]. rewrite forallb_app. cbn [forallb is_network negb].
          apply andb_false_r.
      - cbn [trace]. rewrite forallb_app. cbn [forallb is_network negb].
        apply andb_false_r. }
    destruct (result r0) as [[]|e|]; cbn [trace result];
      [|intros; contradiction|intros; contradiction].
    intros Hin. apply elem_of_app in Hin as [Hin|Hin]; [contradiction|].
    destruct (process_csv_opened_any _ _ _ _ _ Hin) as (w1 & Eo).
    exists (trace r0), (final r0), w1. repeat split; auto.
Qed.
(** X12. A file without data rows uploads nothing, and its header is
    never checked: whatever columns it names, the run returns normally
    when quiet and ends in the unbound-variable error of the last report
    when verbose. *)
Theorem empty_csv_uploads_nothing (fuel : nat) (w : W) (f : csv_file) :
  Open (args.files a) "r" "utf-8-sig" (Returns f) ∈ trace (main a fuel w) ->
  rows f = [] ->
  uploads (trace (main a fuel w)) = [] /\
  result (main a fuel w) =
    (if args.verbose a then Raise (UnboundLocalError "results") else Ok tt).
Proof.
  intros Hin Hrows.
  destruct (main_opened _ _ _ _ _ _ Hin)
    as (t0 & w0 & w1 & Eo & Et & Er & Hup & _).
  rewrite Et, Er, process_csv_run, Eo, Hrows. cbn [rows_documents].
  cbn zeta. cbn [trace result].
  rewrite !uploads_app, Hup.
  unfold index_sections, when_verbose, final_report.
  destruct (args.verbose a); split; reflexivity.
Qed.

End main_more.

(** The same on sample inputs. *)

Lemma empty_csv_uploads_nothing_witness :
  result (main sample_args 0 header_only_mem)
  = Raise (UnboundLocalError "results").
Proof.
  apply (empty_csv_uploads_nothing sample_args 0 header_only_mem
           header_only_file).
  - vm_compute. repeat constructor.
  - reflexivity.
Defined.


(** ** Verbose output only prints *)

Section verbose_only_prints.
Context {W : Type} `{World W}.

Lemma calls_app (t1 t2 : list event) : calls (t1 ++ t2) = calls t1 ++ calls t2.
Proof. apply List.filter_app. Qed.

Lemma calls_said (a : args.t) line : calls (said a line) = [].
Proof. unfold said. destruct (args.verbose a); reflexivity. Qed.

Lemma same_run_refl {A} (r : run W A) : same_run r r.
Proof. repeat split. Qed.

Lemma bind_same {A B} (m1 m2 : M W A) (f1 f2 : A -> M W B) (w : W) :
  same_run (m1 w) (m2 w) ->
  (forall x w1, same_run (f1 x w1) (f2 x w1)) ->
  same_run ((m1 ≫= f1) w) ((m2 ≫= f2) w).
Proof.
  intros [[Hc Hw] Hr] Hf. rewrite !bind_unfold. rewrite <- Hr, <- Hw.
  destruct (result (m1 w)) as [x| |]; cbn [trace final result].
  - destruct (Hf x (final (m1 w))) as [[Hc2 Hw2] Hr2].
    unfold same_run, same_calls. cbn [trace final result].
    rewrite !calls_app, Hc, Hc2. auto.
  - unfold same_run, same_calls. cbn [trace final result]. auto.
  - unfold same_run, same_calls. cbn [trace final result]. auto.
Qed.

Lemma bind_same_calls {A B C} (m1 m2 : M W A)
    (f1 : A -> M W B) (f2 : A -> M W C) (w : W) :
  same_run (m1 w) (m2 w) ->
  (forall x w1, same_calls (f1 x w1) (f2 x w1)) ->
  same_calls ((m1 ≫= f1) w) ((m2 ≫= f2) w).
Proof.
  intros [[Hc Hw] Hr] Hf. rewrite !bind_unfold. rewrite <- Hr, <- Hw.
  destruct (result (m1 w)) as [x| |]; cbn [trace final result].
  - destruct (Hf x (final (m1 w))) as [Hc2 Hw2].
    unfold same_calls. cbn [trace final]. rewrite !calls_app, Hc, Hc2. auto.
  - unfold same_calls. cbn [trace final]. auto.
  - unfold same_calls. cbn [trace final]. auto.
Qed.

Lemma when_verbose_same (a1 a2 : args.t) line1 line2 (w : W) :
  same_run (when_verbose a1 line1 w) (when_verbose a2 line2 w).
Proof.
  rewrite !when_verbose_said. unfold same_run, same_calls.
  cbn [trace final result]. rewrite !calls_said. auto.
Qed.

Variable a : args.t.
Variables v1 v2 : bool.

Lemma for_sections_same (sections : list dict) :
  forall (st : locals) (w : W),
  same_run (for_sections (with_verbose v1 a) sections st w)
           (for_sections (with_verbose v2 a) sections st w).
Proof.
  induction sections as [|s rest IH]; intros st w; [apply same_run_refl|].
  cbn [for_sections]. apply bind_same; [|intros; apply IH].
  unfold loop_body. destruct (_ =? 0); [|apply same_run_refl].
  apply bind_same; [exact (same_run_refl _)|]. intros res w1.
  apply bind_same; [apply when_verbose_same|]. intros _ w2.
  apply same_run_refl.
Qed.

Lemma index_sections_same_calls (sections : list dict) (w : W) :
  same_calls (index_sections (with_verbose v1 a) sections w)
             (index_sections (with_verbose v2 a) sections w).
Proof.
  unfold index_sections.
  apply bind_same_calls; [apply when_verbose_same|]. intros _ w1.
  apply bind_same_calls; [apply for_sections_same|]. intros st w2.
  apply bind_same_calls; [exact (same_run_refl _)|]. intros st1 w3.
  rewrite !final_report_run. cbn [with_verbose args.verbose].
  unfold same_calls.
  destruct v1, v2, (results st1), (succeeded_count st1); split; reflexivity.
Qed.

Lemma purge_loop_same (fuel : nat) :
  forall w : W,
  same_run (purge_loop (with_verbose v1 a) fuel w)
           (purge_loop (with_verbose v2 a) fuel w).
Proof.
  induction fuel as [|fuel IH]; intros w; [apply same_run_refl|].
  cbn [purge_loop]. apply bind_same; [exact (same_run_refl _)|].
  intros r w1. destruct (fst r =? 0); [apply same_run_refl|].
  apply bind_same; [exact (same_run_refl _)|]. intros keys w2.
  apply bind_same; [exact (same_run_refl _)|]. intros r' w3.
  apply bind_same; [apply when_verbose_same|]. intros _ w4.
  apply bind_same; [exact (same_run_refl _)|]. intros _ w5. apply IH.
Qed.

Lemma create_search_index_same (w : W) :
  same_run (create_search_index (with_verbose v1 a) w)
           (create_search_index (with_verbose v2 a) w).
Proof.
  unfold create_search_index.
  apply bind_same; [apply when_verbose_same|]. intros _ w1. cbn zeta.
  apply bind_same; [exact (same_run_refl _)|]. intros names w2.
  change (index_listed (with_verbose v2 a) names)
    with (index_listed (with_verbose v1 a) names).
  destruct (negb (index_listed (with_verbose v1 a) names)).
  - apply bind_same; [apply when_verbose_same|]. intros _ w3.
    exact (same_run_refl _).
  - apply when_verbose_same.
Qed.

(** X14. Verbose output only prints.  Two runs that differ in
    [--verbose] alone make the same calls, with the same arguments and in
    the same order, and leave the world in the same state; only the
    printed lines differ, and the way the last report may end. *)
Theorem verbose_only_prints (fuel : nat) (w : W) :
  calls (trace (main (with_verbose v1 a) fuel w))
  = calls (trace (main (with_verbose v2 a) fuel w)) /\
  final (main (with_verbose v1 a) fuel w)
  = final (main (with_verbose v2 a) fuel w).
Proof.
  change (same_calls (main (with_verbose v1 a) fuel w)
                     (main (with_verbose v2 a) fuel w)).
  assert (Hp : forall w0, same_calls (process_csv (with_verbose v1 a) w0)
                                     (process_csv (with_verbose v2 a) w0)).
  { intros w0. unfold process_csv.
    apply bind_same_calls; [exact (same_run_refl _)|]. intros _ w1.
    apply bind_same_calls; [exact (same_run_refl _)|]. intros f w2.
    apply bind_same_calls; [exact (same_run_refl _)|]. intros _ w3.
    apply bind_same_calls; [exact (same_run_refl _)|]. intros sections w4.
    apply index_sections_same_calls. }
  rewrite !main_run. cbn [with_verbose args.removeall args.remove].
  destruct (args.removeall a).
  - unfold remove_from_index.
    apply bind_same_calls; [apply when_verbose_same|]. intros _ w1.
    apply purge_loop_same.
  - destruct (args.remove a); [apply Hp|].
    apply bind_same_calls; [apply create_search_index_same|].
    intros _ w1. apply Hp.
Qed.
End verbose_only_prints.

(** ** Options that are parsed and never read *)

(** X15. A run depends on seven of the twelve options only: the file,
    the search service, the index, the search key and the three flags
    [--remove], [--removeall] and [--verbose].  The category and the
    four blob-storage options are parsed and never read: two command
    lines that agree on the seven give the same run. *)
Theorem unread_options_are_ignored
    {W : Type} `{World W} (a a' : args.t) (fuel : nat) (w : W) :
  args.files a = args.files a' ->
  args.searchservice a = args.searchservice a' ->
  args.index a = args.index a' ->
  args.searchkey a = args.searchkey a' ->
  args.remove a = args.remove a' ->
  args.removeall a = args.removeall a' ->
  args.verbose a = args.verbose a' ->
  main a fuel w = main a' fuel w.
Proof.
  destruct a, a'. cbn. intros -> -> -> -> -> -> ->. reflexivity.
Qed.

Lemma unread_options_are_ignored_witness :
  main sample_args 0 lacking_mem = main blob_args 0 lacking_mem.
Proof.
  apply (unread_options_are_ignored sample_args blob_args 0 lacking_mem);
    reflexivity.
Defined.
